(** * ArcGIS compact-cache tile server: bundle decoders and tile route

    A shallow embedding of [src/index.ts] (the Express tile route) and of
    the tile reader it imports ([readTileV1], [getBundleInfo],
    [readTileV2]).

    JavaScript numbers that hold tile coordinates, offsets and lengths are
    modelled as mathematical integers [Z] (exact for safe integers); the
    result of [parseInt] is a [jsnum], which adds [NaN].  A [Buffer] is a
    [list byte].  Asynchronous functions become computations in a small
    state-and-exception monad [M] over a [world] that records the open
    file handles and an event trace (file-system calls and console
    output).  A rejected promise is the outcome [Thrown]. *)

From Stdlib Require Import ZArith List String Ascii Bool Lia.
From Stdlib Require Import Init.Byte.
From coqutil Require Import Byte Word.LittleEndianList.
Import ListNotations.

Local Open Scope string_scope.
Local Open Scope list_scope.
Local Open Scope Z_scope.

(* ------------------------------------------------------------------------- *)
(** ** Strings: [Number.prototype.toString] and [String.prototype.padStart]   *)
(* ------------------------------------------------------------------------- *)

Module JSString.

(** The digit alphabet of [Number.prototype.toString(radix)]. *)
Definition alphabet : list ascii :=
  list_ascii_of_string "0123456789abcdefghijklmnopqrstuvwxyz".

Definition digit_char (d : Z) : ascii := nth (Z.to_nat d) alphabet "0"%char.

(** Digits of a non-negative integer, most significant first.  [fuel]
    bounds the number of digits. *)
Fixpoint digits_of (fuel : nat) (radix n : Z) : list Z :=
  match fuel with
  | O => []
  | S fuel' =>
      if n <? radix then [n]
      else digits_of fuel' radix (n / radix) ++ [n mod radix]
  end.

Definition digit_fuel (n : Z) : nat := S (Z.to_nat (Z.log2 n)).

Definition render (ds : list Z) : string :=
  string_of_list_ascii (map digit_char ds).

(** [n.toString(radix)] for a safe integer [n] (at most
    [Number.MAX_SAFE_INTEGER] in absolute value): plain positional
    digits.  Beyond that range a JavaScript number need not be the
    integer written here, and from 1e21 the decimal rendering switches to
    exponent notation; statements about rendered text bound their
    numbers by [MAX_SAFE_INTEGER]. *)
Definition toString (n radix : Z) : string :=
  if n <? 0
  then String "-" (render (digits_of (digit_fuel (- n)) radix (- n)))
  else render (digits_of (digit_fuel n) radix n).

Fixpoint replicate (k : nat) (c : ascii) : string :=
  match k with
  | O => EmptyString
  | S k' => String c (replicate k' c)
  end.

(** [s.padStart(targetLength, pad)] for a one-character [pad]. *)
Definition padStart (s : string) (targetLength : nat) (pad : ascii) : string :=
  (replicate (targetLength - String.length s) pad ++ s)%string.

(** Reading a digit string back, used to state what a rendered field
    denotes. *)
Definition digit_value (c : ascii) : option Z :=
  let k := Z.of_nat (nat_of_ascii c) in
  if (48 <=? k) && (k <=? 57) then Some (k - 48)
  else if (97 <=? k) && (k <=? 122) then Some (k - 87)
  else None.

Fixpoint value_from (radix acc : Z) (s : string) : option Z :=
  match s with
  | EmptyString => Some acc
  | String c s' =>
      match digit_value c with
      | Some d => if d <? radix then value_from radix (acc * radix + d) s' else None
      | None => None
      end
  end.

Definition value (radix : Z) (s : string) : option Z :=
  match s with
  | EmptyString => None
  | _ => value_from radix 0 s
  end.

Definition first_char (s : string) : option ascii :=
  match s with
  | EmptyString => None
  | String c _ => Some c
  end.

(** [s] is [n] written in base [radix] with lowercase digits, padded on
    the left with zeros to [width] characters (and not truncated when
    [n] needs more). *)
Definition zero_padded (radix : Z) (width : nat) (n : Z) (s : string) : Prop :=
  value radix s = Some n /\
  (width <= String.length s)%nat /\
  ((width < String.length s)%nat -> first_char s <> Some "0"%char).

End JSString.

(** [Number.MAX_SAFE_INTEGER]: up to here every integer is a JavaScript
    number, [Math.floor(a / b) * b] of integers is exact and [toString]
    writes all the digits. *)
Definition MAX_SAFE_INTEGER : Z := 2 ^ 53 - 1.

(* ------------------------------------------------------------------------- *)
(** ** Buffers                                                                 *)
(* ------------------------------------------------------------------------- *)

Definition buffer := list byte.

(** [Buffer.alloc(size)]: zero-filled. *)
Definition Buffer_alloc (size : Z) : buffer := repeat x00 (Z.to_nat size).

(** [buf.readUIntLE(offset, byteLength)]. *)
Definition readUIntLE (buf : buffer) (offset byteLength : nat) : Z :=
  le_combine (firstn byteLength (skipn offset buf)).

(** [buf.readUInt32LE(offset)]. *)
Definition readUInt32LE (buf : buffer) (offset : nat) : Z :=
  readUIntLE buf offset 4.

(** The signed reading of a 32-bit pattern (two's complement). *)
Definition to_int32 (u : Z) : Z := if u <? 2 ^ 31 then u else u - 2 ^ 32.

(** [buf.readInt32LE(offset)]. *)
Definition readInt32LE (buf : buffer) (offset : nat) : Z :=
  to_int32 (readUIntLE buf offset 4).

(* ------------------------------------------------------------------------- *)
(** ** The file system and the effect monad                                    *)
(* ------------------------------------------------------------------------- *)

Inductive error : Type :=
| ENOENT (p : string)          (* open of a path that does not exist *)
| EISDIR                       (* read on a handle of a directory *)
| ERR_OUT_OF_RANGE             (* argument validation of [read] *)
| ERR_INVALID_ARG_VALUE
| ConfError (mapName : string) (* [getConfXml] failed *).

Inductive outcome (A : Type) : Type :=
| Returned (a : A)
| Thrown (e : error).
Arguments Returned {A} a.
Arguments Thrown {A} e.

(** What a path names.  A directory can be opened for reading and fails on
    the first read. *)
Inductive node : Type :=
| RegularFile (content : list byte)
| Directory.

Definition filesystem := string -> option node.

Record FileHandle : Type := mkHandle { fd : nat; target : node }.

(** Console output, one constructor per message template of the source. *)
Inductive diagnostic : Type :=
| WarnTileMissingV1 (z x y : Z)
| WarnInvalidLengthV1 (length : Z)
| LogReadTileV2 (col row level : Z) (bundlePath : string)
| WarnBundleNotFound (bundlePath : string)
| WarnUnsupportedVersion (version : Z) (bundlePath : string)
| WarnTileNotFoundV2 (col row : Z)
| WarnInvalidSizeV2 (col row tileSize : Z)
| LogLoose
| ErrorSendingTile (mapName : string) (level row col : Z) (e : error).

Inductive event : Type :=
| Open (p : string) (h : option nat)   (* [fs.open]; [None] when it rejects *)
| Read (h : nat) (position length : Z) (* [fd.read] *)
| Close (h : nat)                      (* [fd.close] *)
| Console (d : diagnostic).

(** [cursors]: the current file position of every handle opened so far,
    indexed by handle number. *)
Record world : Type := mkWorld { cursors : list Z; trace : list event }.

Definition M (A : Type) : Type := world -> outcome A * world.

Definition ret {A} (a : A) : M A := fun w => (Returned a, w).

Definition throw {A} (e : error) : M A := fun w => (Thrown e, w).

Definition bind {A B} (m : M A) (k : A -> M B) : M B :=
  fun w =>
    match m w with
    | (Returned a, w') => k a w'
    | (Thrown e, w') => (Thrown e, w')
    end.

(** [try { body } catch (err) { handler }]. *)
Definition try_catch {A} (body : M A) (handler : error -> M A) : M A :=
  fun w =>
    match body w with
    | (Returned a, w') => (Returned a, w')
    | (Thrown e, w') => handler e w'
    end.

(** [try { body } finally { cleanup }]. *)
Definition try_finally {A} (body : M A) (cleanup : M unit) : M A :=
  fun w =>
    match body w with
    | (r, w') =>
        match cleanup w' with
        | (Returned _, w'') => (r, w'')
        | (Thrown e, w'') => (Thrown e, w'')
        end
    end.

Declare Scope effect_scope.
Delimit Scope effect_scope with effect.
Notation "x <- c ;; k" := (bind c (fun x => k))
  (at level 61, c at next level, right associativity) : effect_scope.
Notation "c ;;; k" := (bind c (fun _ => k))
  (at level 61, right associativity) : effect_scope.
Local Open Scope effect_scope.

Definition emit (e : event) : M unit :=
  fun w => (Returned tt, mkWorld (cursors w) (trace w ++ [e])).

Definition console (d : diagnostic) : M unit := emit (Console d).

(** Bytes of [content] from [position], at most [length] of them. *)
Definition file_slice (content : list byte) (position length : Z) : list byte :=
  if Z.of_nat (List.length content) <=? position then []
  else firstn (Z.to_nat length) (skipn (Z.to_nat position) content).

(** Overwrite [buf] from [offset] with [data]. *)
Definition blit (buf : buffer) (offset : nat) (data : list byte) : buffer :=
  firstn offset buf ++ data ++ skipn (offset + List.length data) buf.

Fixpoint set_nth (i : nat) (v : Z) (l : list Z) : list Z :=
  match l, i with
  | [], _ => []
  | _ :: t, O => v :: t
  | x :: t, S i' => x :: set_nth i' v t
  end.

Section FileSystem.

Variable disk : filesystem.

(** [fs.open(path, 'r')]. *)
Definition fs_open (p : string) : M FileHandle :=
  fun w =>
    match disk p with
    | None => (Thrown (ENOENT p), mkWorld (cursors w) (trace w ++ [Open p None]))
    | Some n =>
        let h := List.length (cursors w) in
        (Returned (mkHandle h n),
         mkWorld (cursors w ++ [0]) (trace w ++ [Open p (Some h)]))
    end.

(** [fs.existsSync(path)]. *)
Definition fs_existsSync (p : string) : bool :=
  match disk p with
  | None => false
  | Some _ => true
  end.

End FileSystem.

(** [fd.read(buf, offset, length, position)].  The buffer is mutated in
    place in the source; here the updated buffer is returned.  A
    non-negative [position] reads there and leaves the handle's cursor
    alone; [-1] reads at the cursor and advances it; anything below is
    rejected.  Reading at or past the end of the file reads nothing. *)
Definition FileHandle_read (h : FileHandle) (buf : buffer)
    (offset length position : Z) : M buffer :=
  emit (Read (fd h) position length) ;;;
  if length =? 0 then ret buf
  else if Z.of_nat (List.length buf) =? 0 then throw ERR_INVALID_ARG_VALUE
  else if (offset <? 0) || (length <? 0)
          || (Z.of_nat (List.length buf) <? offset + length)
          || (position <? -1)
  then throw ERR_OUT_OF_RANGE
  else
    match target h with
    | Directory => throw EISDIR
    | RegularFile content =>
        fun w =>
          if position =? -1 then
            let cur := nth (fd h) (cursors w) 0 in
            let got := file_slice content cur length in
            (Returned (blit buf (Z.to_nat offset) got),
             mkWorld (set_nth (fd h) (cur + Z.of_nat (List.length got)) (cursors w))
                     (trace w))
          else
            (Returned (blit buf (Z.to_nat offset) (file_slice content position length)), w)
    end.

(** [fd.close()]. *)
Definition FileHandle_close (h : FileHandle) : M unit := emit (Close (fd h)).

(* ------------------------------------------------------------------------- *)
(** ** Tile reader: [getBundleInfo], [readTileV1], [readTileV2]               *)
(* ------------------------------------------------------------------------- *)

Definition HEADER_SIZE : Z := 64.
Definition RECORD_SIZE : Z := 8.

(** A parameter declared [p = 128] takes its default when the caller
    leaves it out; [None] is the omitted argument. *)
Definition or_default (d : Z) (arg : option Z) : Z :=
  match arg with
  | Some v => v
  | None => d
  end.

Record BundleInfo : Type := mkBundleInfo
  { L : string; R : string; C : string; rGroup : Z; cGroup : Z }.

(** [Math.floor(a / b)] on integers is [Z.div] (for [b <> 0]). *)
Definition getBundleInfo (col row level : Z) (packetSize : option Z) : BundleInfo :=
  let packetSize := or_default 128 packetSize in
  let rGroup := (row / packetSize) * packetSize in
  let cGroup := (col / packetSize) * packetSize in
  let L := String "L" (JSString.padStart (JSString.toString level 10) 2 "0") in
  let R := String "R" (JSString.padStart (JSString.toString rGroup 16) 4 "0") in
  let C := String "C" (JSString.padStart (JSString.toString cGroup 16) 4 "0") in
  mkBundleInfo L R C rGroup cGroup.

Section TileReader.

(** [path.join] of Node's [path] module. *)
Variable path_join : list string -> string.
Variable disk : filesystem.

Definition bundle_file (info : BundleInfo) (ext : string) : string :=
  (R info ++ C info ++ ext)%string.

Definition readTileV1 (allLayersDir : string) (z x y : Z)
    (packetSize : option Z) : M (option buffer) :=
  let packetSize := or_default 128 packetSize in
  let info := getBundleInfo x y z None in
  let bundlePath := path_join [allLayersDir; L info; bundle_file info ".bundle"] in
  let bundlxPath := path_join [allLayersDir; L info; bundle_file info ".bundlx"] in
  fdIndex <- fs_open disk bundlxPath ;;
  let buffer := Buffer_alloc 5 in
  let index := packetSize * (x - cGroup info) + (y - rGroup info) in
  buffer <- FileHandle_read fdIndex buffer 0 5 (16 + 5 * index) ;;
  let offset := readUIntLE buffer 0 5 in
  FileHandle_close fdIndex ;;;
  if offset =? 0 then
    console (WarnTileMissingV1 z x y) ;;;
    ret None
  else
    fdBundle <- fs_open disk bundlePath ;;
    let lenBuf := Buffer_alloc 4 in
    lenBuf <- FileHandle_read fdBundle lenBuf 0 4 offset ;;
    let length := readInt32LE lenBuf 0 in
    if (length <=? 0) || (length >? 1000000) then
      console (WarnInvalidLengthV1 length) ;;;
      FileHandle_close fdBundle ;;;
      ret None
    else
      let data := Buffer_alloc length in
      data <- FileHandle_read fdBundle data 0 length (offset + 4) ;;
      FileHandle_close fdBundle ;;;
      ret (Some data).

Definition readTileV2 (allLayersDir : string) (col row level : Z)
    (packetSize : option Z) : M (option buffer) :=
  let packetSize := or_default 128 packetSize in
  let info := getBundleInfo col row level (Some packetSize) in
  let bundlePath := path_join [allLayersDir; L info; bundle_file info ".bundle"] in
  console (LogReadTileV2 col row level bundlePath) ;;;
  opened <- try_catch
              (fd <- fs_open disk bundlePath ;; ret (Some fd))
              (fun _ => console (WarnBundleNotFound bundlePath) ;;; ret None) ;;
  match opened with
  | None => ret None
  | Some fd =>
      try_finally
        (let headerBuf := Buffer_alloc HEADER_SIZE in
         headerBuf <- FileHandle_read fd headerBuf 0 HEADER_SIZE 0 ;;
         let version := readUInt32LE headerBuf 0 in
         if negb (version =? 3) then
           console (WarnUnsupportedVersion version bundlePath) ;;;
           ret None
         else
           let tileIndex := packetSize * (row - rGroup info) + (col - cGroup info) in
           let recordOffset := HEADER_SIZE + RECORD_SIZE * tileIndex in
           let recordBuf := Buffer_alloc 4 in
           recordBuf <- FileHandle_read fd recordBuf 0 4 recordOffset ;;
           let dataOffset := readInt32LE recordBuf 0 in
           if dataOffset =? 0 then
             console (WarnTileNotFoundV2 col row) ;;;
             ret None
           else
             let lengthBuf := Buffer_alloc 4 in
             lengthBuf <- FileHandle_read fd lengthBuf 0 4 (dataOffset - 4) ;;
             let tileSize := readInt32LE lengthBuf 0 in
             if tileSize <=? 0 then
               console (WarnInvalidSizeV2 col row tileSize) ;;;
               ret None
             else
               let tileBuf := Buffer_alloc tileSize in
               tileBuf <- FileHandle_read fd tileBuf 0 tileSize dataOffset ;;
               ret (Some tileBuf))
        (FileHandle_close fd)
  end.

End TileReader.

(* ------------------------------------------------------------------------- *)
(** ** The raster tile route of [index.ts]                                    *)
(* ------------------------------------------------------------------------- *)

(** The result of [parseInt] on a path parameter. *)
Inductive jsnum : Type :=
| NaN
| Num (n : Z).

(** [!v] on such a number: true for [NaN] and for zero. *)
Definition not_num (v : jsnum) : bool :=
  match v with
  | NaN => true
  | Num n => n =? 0
  end.

(** [!s] on a string: true for the empty string. *)
Definition not_str (s : string) : bool :=
  match s with
  | EmptyString => true
  | _ => false
  end.

Definition num_Z (v : jsnum) : Z :=
  match v with
  | NaN => 0
  | Num n => n
  end.

Inductive TileType : Type := v1 | v2 | loose | unknown.

(** The fields of [ConfXmlInfo] that the tile route reads. *)
Record ConfXmlInfo : Type := mkConf
  { imageFormat : string; tileType : TileType; packetSize : Z }.

Inductive response : Type :=
| SendText (status : Z) (text : string)          (* [res.status(s).send(text)] *)
| SendFile (p : string)                          (* [res.sendFile(p)] *)
| SendTile (contentType : string) (data : buffer) (* header, then [res.send] *).

Definition upper_to_lower (c : ascii) : ascii :=
  let k := nat_of_ascii c in
  if (65 <=? k)%nat && (k <=? 90)%nat then ascii_of_nat (k + 32) else c.

(** [s.toLowerCase()] on ASCII. *)
Fixpoint toLowerCase (s : string) : string :=
  match s with
  | EmptyString => EmptyString
  | String c s' => String (upper_to_lower c) (toLowerCase s')
  end.

Section Server.

Variable path_join : list string -> string.
Variable TILE_SERVER_ROOT : string.
(** [getConfXml]: the parsed and cached [conf.xml] of a map, or the
    error it throws. *)
Variable getConfXml : string -> outcome ConfXmlInfo.
Variable disk : filesystem.

Definition RASTER_TILE_ROOT_DIR : string :=
  path_join [TILE_SERVER_ROOT; "image_tiles"].

Definition getAllLayersDir (mapName : string) : string :=
  path_join [RASTER_TILE_ROOT_DIR; mapName; "_alllayers"].

(** The [for (const ext of extensions)] loop of the loose branch. *)
Fixpoint first_existing (mapName L_dir R_dir C_file : string)
    (extensions : list string) : option string :=
  match extensions with
  | [] => None
  | ext :: rest =>
      let tilePath :=
        path_join [RASTER_TILE_ROOT_DIR; mapName; "_alllayers"; L_dir; R_dir;
                   (C_file ++ ext)%string] in
      if fs_existsSync disk tilePath then Some tilePath
      else first_existing mapName L_dir R_dir C_file rest
  end.

(** The handler of
    [/image_tiles/:mapName/MapServer/tile/:level/:row/:col]; [level],
    [row] and [col] are the [parseInt] of the path parameters. *)
Definition tileRoute (mapName : string) (level row col : jsnum) : M response :=
  if not_str mapName || not_num level || not_num row || not_num col
  then ret (SendText 400 "Missing parameters")
  else
    let level := num_Z level in
    let row := num_Z row in
    let col := num_Z col in
    conf <- (fun w => (getConfXml mapName, w)) ;;
    match tileType conf with
    | loose =>
        console LogLoose ;;;
        let L_dir := String "L" (JSString.padStart (JSString.toString level 10) 2 "0") in
        let R_dir := String "R" (JSString.padStart (toLowerCase (JSString.toString row 16)) 8 "0") in
        let C_file := String "C" (JSString.padStart (toLowerCase (JSString.toString col 16)) 8 "0") in
        match first_existing mapName L_dir R_dir C_file [".jpg"; ".jpeg"; ".png"] with
        | Some tilePath => ret (SendFile tilePath)
        | None => ret (SendText 404 "Raster Tile not found")
        end
    | other =>
        try_catch
          (tileBuffer <-
             match other with
             | v1 => readTileV1 path_join disk (getAllLayersDir mapName) level col row None
             | v2 => readTileV2 path_join disk (getAllLayersDir mapName) col row level
                       (Some (packetSize conf))
             | _ => ret None
             end ;;
           match tileBuffer with
           | None => ret (SendText 404 "Tile not found or empty.")
           | Some data =>
               ret (SendTile ("image/" ++ imageFormat conf)%string data)
           end)
          (fun e =>
             console (ErrorSendingTile mapName level row col e) ;;;
             ret (SendText 500 "Internal server error."))
    end.

End Server.

(* ------------------------------------------------------------------------- *)
(** ** The configuration cache of [index.ts]                                   *)
(* ------------------------------------------------------------------------- *)

(** [mapInfoCache], a [Map] from map name to configuration. *)
Definition ConfCache : Type := string -> option ConfXmlInfo.

(** [cache.set(key, value)]. *)
Definition Map_set (cache : ConfCache) (key : string) (value : ConfXmlInfo)
  : ConfCache :=
  fun k => if String.eqb k key then Some value else cache k.

Section ConfigLoader.

Variable path_join : list string -> string.
Variable TILE_SERVER_ROOT : string.
(** What [getConfXml] makes of the bytes of a [conf.xml]: decoding, the
    xml2js parse and the assembly of the [ConfXmlInfo], or the error one
    of them throws. *)
Variable parseConf : list byte -> outcome ConfXmlInfo.
Variable disk : filesystem.

(** [getConfXml(mapName)], with the cache passed in and out. *)
Definition getConfXml (mapName : string) (cache : ConfCache)
  : outcome ConfXmlInfo * ConfCache :=
  match cache mapName with
  | Some cached => (Returned cached, cache)
  | None =>
      let confPath :=
        path_join [RASTER_TILE_ROOT_DIR path_join TILE_SERVER_ROOT; mapName;
                   "conf.xml"] in
      if negb (fs_existsSync disk confPath)
      then (Thrown (ConfError mapName), cache)
      else
        match disk confPath with
        | Some (RegularFile xml) =>
            match parseConf xml with
            | Returned cached => (Returned cached, Map_set cache mapName cached)
            | Thrown e => (Thrown e, cache)
            end
        | _ => (Thrown EISDIR, cache)
        end
  end.

End ConfigLoader.

(* ------------------------------------------------------------------------- *)
(** ** The vector tile routes of [index.ts]                                    *)
(* ------------------------------------------------------------------------- *)

Module JSUrl.

(** [s.indexOf(c)] for a one-character [c]; [None] is JavaScript's -1. *)
Fixpoint indexOf (s : string) (c : ascii) : option nat :=
  match s with
  | EmptyString => None
  | String a rest =>
      if Ascii.eqb a c then Some O else option_map S (indexOf rest c)
  end.

(** [s.includes(c)]. *)
Definition includes (s : string) (c : ascii) : bool :=
  match indexOf s c with
  | Some _ => true
  | None => false
  end.

(** [s.slice(start)] for [0 <= start]. *)
Fixpoint slice (s : string) (start : nat) : string :=
  match start, s with
  | O, _ => s
  | S n, String _ rest => slice rest n
  | S _, EmptyString => EmptyString
  end.

(** [s.endsWith(c)] for a one-character [c]. *)
Fixpoint endsWith (s : string) (c : ascii) : bool :=
  match s with
  | EmptyString => false
  | String a EmptyString => Ascii.eqb a c
  | String _ rest => endsWith rest c
  end.

(** [s.replace(/\/?$/, '/')]: the pattern matches a final slash when
    there is one and the empty string at the end otherwise. *)
Definition replace_final_slash (s : string) : string :=
  if endsWith s "/" then s else (s ++ "/")%string.

(** The part of a URL before its first question mark: Express's
    [req.path] for a [req.url]. *)
Fixpoint before_query (url : string) : string :=
  match url with
  | EmptyString => EmptyString
  | String a rest =>
      if Ascii.eqb a "?" then EmptyString else String a (before_query rest)
  end.

End JSUrl.

Inductive vector_response : Type :=
| JsonFile (p : string)   (* JSON content type, then [res.sendFile(p)] *)
| NotFound (text : string) (* [res.status(404).send(text)] *)
| Redirect (status : Z) (location : string)
| NoContent               (* [res.status(204).end()] *).

Section VectorTiles.

Variable path_join : list string -> string.
Variable TILE_SERVER_ROOT : string.
Variable disk : filesystem.

Definition VECTOR_TILE_ROOT_DIR_NAME : string := "vector_tiles".

Definition VECTOR_TILE_ROOT_PATH : string :=
  path_join [TILE_SERVER_ROOT; VECTOR_TILE_ROOT_DIR_NAME].

Definition sendJsonFile (filePath : string) : vector_response :=
  if fs_existsSync disk filePath then JsonFile filePath
  else NotFound ("Not found: " ++ filePath)%string.

(** The handler of [/vector_tiles/:package/p12].  [f] is [req.query.f]
    when it is a string; [path], [url] and [originalUrl] are the fields
    of the request. *)
Definition vectorRootRoute (f : option string) (path url originalUrl package : string)
  : vector_response :=
  if match f with Some v => String.eqb v "json" | None => false end then
    let rootJson := path_join [VECTOR_TILE_ROOT_PATH; package; "p12"; "root.json"] in
    sendJsonFile rootJson
  else if negb (JSUrl.endsWith path "/") then
    let q := if JSUrl.includes url "?"
             then match JSUrl.indexOf url "?" with
                  | Some i => JSUrl.slice url i
                  | None => url
                  end
             else EmptyString in
    Redirect 301 (JSUrl.replace_final_slash originalUrl ++ q)%string
  else NoContent.

(** The handler of [/vector_tiles/:package/p12/tilemap]. *)
Definition vectorTilemapRoute (package : string) : vector_response :=
  let tilemapJson :=
    path_join [VECTOR_TILE_ROOT_PATH; package; "p12"; "tilemap"; "root.json"] in
  sendJsonFile tilemapJson.

End VectorTiles.

(* ------------------------------------------------------------------------- *)
(** ** Vocabulary of the statements                                           *)
(* ------------------------------------------------------------------------- *)

(** What a read of [length] bytes at [position] leaves in a fresh buffer
    of that size: the bytes of the file, zeros past its end. *)
Definition read_at (content : list byte) (position length : Z) : buffer :=
  blit (Buffer_alloc length) 0 (file_slice content position length).

(** The little-endian unsigned integer stored in the [width] bytes of
    [content] at [position]. *)
Definition le_uint_at (content : list byte) (position width : Z) : Z :=
  le_combine (file_slice content position width).

(** The same bytes read as a signed 32-bit integer. *)
Definition le_int32_at (content : list byte) (position : Z) : Z :=
  to_int32 (le_uint_at content position 4).

(** The events a computation added to the trace of [w]. *)
Definition events_since (w w' : world) : list event :=
  skipn (List.length (trace w)) (trace w').

(** Paths of the [fs.open] calls in a trace, in order. *)
Fixpoint opened_paths (t : list event) : list string :=
  match t with
  | [] => []
  | Open p _ :: t' => p :: opened_paths t'
  | _ :: t' => opened_paths t'
  end.

(** Positions and lengths of the reads made through handle [h]. *)
Fixpoint reads_of (h : nat) (t : list event) : list (Z * Z) :=
  match t with
  | [] => []
  | Read h' position length :: t' =>
      if Nat.eqb h h' then (position, length) :: reads_of h t' else reads_of h t'
  | _ :: t' => reads_of h t'
  end.

(** How often handle [h] is closed in a trace. *)
Fixpoint close_count (h : nat) (t : list event) : nat :=
  match t with
  | [] => O
  | Close h' :: t' => if Nat.eqb h h' then S (close_count h t') else close_count h t'
  | _ :: t' => close_count h t'
  end.

(** Handles that a trace opens. *)
Fixpoint opened_handles (t : list event) : list nat :=
  match t with
  | [] => []
  | Open _ (Some h) :: t' => h :: opened_handles t'
  | _ :: t' => opened_handles t'
  end.

(** A computation that only appends to the trace, and only events that
    satisfy [P]. *)
Definition emits (P : event -> Prop) {A} (m : M A) : Prop :=
  forall w, exists evs, trace (snd (m w)) = trace w ++ evs /\ Forall P evs.

Definition any_event (e : event) : Prop := True.

(** Events that neither open nor close a handle. *)
Definition quiet (e : event) : Prop :=
  match e with
  | Read _ _ _ | Console _ => True
  | Open _ _ | Close _ => False
  end.

Definition parse_fails_or_zero (v : jsnum) : Prop := v = NaN \/ v = Num 0.

(* ------------------------------------------------------------------------- *)
(** ** Sample caches                                                          *)
(* ------------------------------------------------------------------------- *)

Module Sample.

(** [path.join] on segments that are already normalised. *)
Definition join (parts : list string) : string := String.concat "/" parts.

Definition fresh : world := mkWorld [] [].

Definition png : list byte := [x89; x50; x4e; x47].

Definition zeros (n : Z) : list byte := repeat x00 (Z.to_nat n).

(** A [.bundlx] whose slot [slot] holds [offset]. *)
Definition bundlx (slot offset : Z) : list byte :=
  zeros (16 + 5 * slot) ++ le_split 5 offset.

(** A V1 [.bundle] with one block at byte 8: [length], then [data]. *)
Definition bundle_v1 (length : Z) (data : list byte) : list byte :=
  zeros 8 ++ le_split 4 length ++ data.

(** A V2 [.bundle] of the given [version] whose slot [slot] points at a
    block placed right after the slot. *)
Definition bundle_v2 (version slot length : Z) (data : list byte) : list byte :=
  le_split 4 version ++ zeros 60 ++ zeros (8 * slot)
    ++ le_split 4 (64 + 8 * slot + 12) ++ zeros 4
    ++ le_split 4 length ++ data.

Definition one_file (p : string) (n : node) : filesystem :=
  fun q => if String.eqb q p then Some n else None.

Definition two_files (p1 : string) (n1 : node) (p2 : string) (n2 : node)
  : filesystem :=
  fun q => if String.eqb q p1 then Some n1
           else if String.eqb q p2 then Some n2 else None.

Definition empty_disk : filesystem := fun _ => None.

(** Level 1, row 1, column 1: slot 129 in both layouts when the packet
    size is 128. *)
Definition v1_cache (length : Z) (data : list byte) : filesystem :=
  two_files "/c/L01/R0000C0000.bundlx" (RegularFile (bundlx 129 8))
            "/c/L01/R0000C0000.bundle" (RegularFile (bundle_v1 length data)).

Definition v2_cache (length : Z) (data : list byte) : filesystem :=
  one_file "/c/L01/R0000C0000.bundle" (RegularFile (bundle_v2 3 129 length data)).

End Sample.

(* ------------------------------------------------------------------------- *)
(** ** Rendering numbers                                                      *)
(* ------------------------------------------------------------------------- *)

Module JSStringFacts.
Import JSString.

Lemma small_cases (d : Z) (bound : nat) :
  0 <= d < Z.of_nat bound -> exists k, (k < bound)%nat /\ d = Z.of_nat k.
Proof. intros Hd. exists (Z.to_nat d). lia. Qed.

Lemma digit_value_char d :
  0 <= d < 36 -> digit_value (digit_char d) = Some d.
Proof.
  intros Hd. destruct (small_cases d 36 Hd) as (k & Hk & ->).
  do 36 (destruct k as [|k]; [reflexivity|]). lia.
Qed.

Lemma digit_char_nonzero d :
  0 < d < 36 -> digit_char d <> "0"%char.
Proof.
  intros Hd. destruct (small_cases d 36 ltac:(lia)) as (k & Hk & ->).
  destruct k as [|k]; [lia|].
  do 35 (destruct k as [|k]; [discriminate|]). lia.
Qed.

Lemma render_app ds1 ds2 :
  render (ds1 ++ ds2) = (render ds1 ++ render ds2)%string.
Proof.
  unfold render. rewrite map_app.
  induction (map digit_char ds1) as [|c cs IH]; cbn; [reflexivity|].
  now rewrite IH.
Qed.

Lemma value_from_app radix s1 : forall acc s2,
  value_from radix acc (s1 ++ s2) =
  match value_from radix acc s1 with
  | Some a => value_from radix a s2
  | None => None
  end.
Proof.
  induction s1 as [|c s1 IH]; intros acc s2; cbn; [reflexivity|].
  destruct (digit_value c) as [d|]; [|reflexivity].
  destruct (d <? radix); [apply IH|reflexivity].
Qed.

Lemma length_append s1 s2 :
  String.length (s1 ++ s2) = (String.length s1 + String.length s2)%nat.
Proof. induction s1 as [|c s1 IH]; cbn; [reflexivity|now rewrite IH]. Qed.

Lemma value_from_digits radix : 2 <= radix <= 36 ->
  forall fuel n, 0 <= n < 2 ^ Z.of_nat fuel ->
    value_from radix 0 (render (digits_of fuel radix n)) = Some n.
Proof.
  intros Hr. induction fuel as [|fuel IH]; intros n Hn.
  - cbn in Hn. assert (n = 0) by lia. subst. reflexivity.
  - cbn [digits_of]. destruct (Z.ltb_spec n radix) as [Hlt|Hge].
    + unfold render. cbn [map string_of_list_ascii value_from].
      rewrite digit_value_char by lia.
      replace (n <? radix) with true by (symmetry; apply Z.ltb_lt; lia).
      reflexivity.
    + rewrite render_app, value_from_app, IH.
      * unfold render. cbn [map string_of_list_ascii value_from].
        pose proof (Z.mod_pos_bound n radix ltac:(lia)) as Hm.
        rewrite digit_value_char by lia.
        replace (n mod radix <? radix) with true by (symmetry; apply Z.ltb_lt; lia).
        f_equal. pose proof (Z.div_mod n radix ltac:(lia)). lia.
      * rewrite Nat2Z.inj_succ, Z.pow_succ_r in Hn by lia.
        split; [apply Z.div_pos; lia|].
        apply Z.div_lt_upper_bound; [lia|].
        nia.
Qed.

Lemma digits_nonempty fuel radix n :
  digits_of (S fuel) radix n <> [].
Proof.
  cbn. destruct (n <? radix); [discriminate|].
  intros H. apply app_eq_nil in H. destruct H; discriminate.
Qed.

Lemma first_char_render_app ds1 ds2 :
  ds1 <> [] -> first_char (render (ds1 ++ ds2)) = first_char (render ds1).
Proof. destruct ds1; [contradiction|reflexivity]. Qed.

Lemma first_digit_nonzero radix : 2 <= radix <= 36 ->
  forall fuel n, 0 < n < 2 ^ Z.of_nat fuel ->
    first_char (render (digits_of fuel radix n)) <> Some "0"%char.
Proof.
  intros Hr. induction fuel as [|fuel IH]; intros n Hn.
  - cbn in Hn. lia.
  - cbn [digits_of]. destruct (Z.ltb_spec n radix) as [Hlt|Hge].
    + unfold render. cbn [map string_of_list_ascii first_char].
      intros [= H]. revert H. apply digit_char_nonzero. lia.
    + assert (Hq : 0 < n / radix < 2 ^ Z.of_nat fuel).
      { rewrite Nat2Z.inj_succ, Z.pow_succ_r in Hn by lia.
        split; [apply Z.div_str_pos; lia|].
        apply Z.div_lt_upper_bound; [lia|]. nia. }
      rewrite first_char_render_app; [now apply IH|].
      destruct fuel; [cbn in Hq; lia|apply digits_nonempty].
Qed.

Lemma digit_fuel_enough n : 0 <= n -> 0 <= n < 2 ^ Z.of_nat (digit_fuel n).
Proof.
  intros Hn. unfold digit_fuel.
  rewrite Nat2Z.inj_succ, Z2Nat.id by apply Z.log2_nonneg.
  destruct (Z.eq_dec n 0) as [->|Hnz]; [cbn; lia|].
  pose proof (Z.log2_spec n ltac:(lia)). lia.
Qed.

Lemma render_nonempty ds : ds <> [] -> render ds <> EmptyString.
Proof. destruct ds; [contradiction|discriminate]. Qed.

Lemma value_from_zeros radix k s :
  0 < radix ->
  value_from radix 0 (replicate k "0" ++ s) = value_from radix 0 s.
Proof.
  intros Hr. induction k as [|k IH]; [reflexivity|].
  cbn [replicate append value_from].
  change (digit_value "0"%char) with (Some 0). cbv iota.
  replace (0 <? radix) with true by (symmetry; apply Z.ltb_lt; lia).
  replace (0 * radix + 0) with 0 by lia. exact IH.
Qed.

Lemma length_replicate k c : String.length (replicate k c) = k.
Proof. induction k; cbn; congruence. Qed.

(** A non-negative number, rendered and padded, is that number written
    with zero padding. *)
Lemma padStart_toString radix width n :
  2 <= radix <= 36 -> 0 <= n -> (1 <= width)%nat ->
  zero_padded radix width n (padStart (toString n radix) width "0").
Proof.
  intros Hr Hn Hw. unfold toString.
  replace (n <? 0) with false by (symmetry; apply Z.ltb_ge; lia).
  pose proof (digit_fuel_enough n Hn) as Hfuel.
  set (s := render (digits_of (digit_fuel n) radix n)).
  assert (Hval : value_from radix 0 s = Some n)
    by (apply value_from_digits; assumption).
  assert (Hne : s <> EmptyString)
    by (apply render_nonempty, digits_nonempty).
  unfold zero_padded, padStart. repeat split.
  - unfold value.
    destruct (replicate (width - String.length s) "0" ++ s)%string eqn:E.
    + exfalso. apply (f_equal String.length) in E.
      rewrite length_append, length_replicate in E.
      assert (String.length s <> 0)%nat by (destruct s; [contradiction|discriminate]).
      change (String.length EmptyString) with 0%nat in E. lia.
    + rewrite <- E, value_from_zeros by lia. exact Hval.
  - rewrite length_append, length_replicate. lia.
  - rewrite length_append, length_replicate. intros Hlong.
    replace (width - String.length s)%nat with 0%nat by lia.
    cbn [replicate append].
    destruct (Z.eq_dec n 0) as [->|Hnz].
    + assert (Hs : s = "0").
      { subst s. unfold digit_fuel. change (Z.to_nat (Z.log2 0)) with 0%nat.
        cbn [digits_of].
        replace (0 <? radix) with true by (symmetry; apply Z.ltb_lt; lia).
        reflexivity. }
      rewrite Hs in Hlong. cbn [String.length] in Hlong. lia.
    + apply first_digit_nonzero; [assumption|lia].
Qed.

End JSStringFacts.

(* ------------------------------------------------------------------------- *)
(** ** Buffers and reads                                                      *)
(* ------------------------------------------------------------------------- *)

Lemma file_slice_length content position length :
  (List.length (file_slice content position length) <= Z.to_nat length)%nat.
Proof.
  unfold file_slice.
  destruct (Z.of_nat (List.length content) <=? position).
  - simpl. lia.
  - apply firstn_le_length.
Qed.

Lemma read_at_pad content position length :
  read_at content position length =
  file_slice content position length
    ++ repeat x00 (Z.to_nat length - List.length (file_slice content position length)).
Proof.
  unfold read_at, blit, Buffer_alloc.
  rewrite firstn_O, Nat.add_0_l. simpl.
  f_equal.
  pose proof (file_slice_length content position length) as Hle.
  remember (List.length (file_slice content position length)) as k.
  replace (Z.to_nat length) with (k + (Z.to_nat length - k))%nat at 1 by lia.
  rewrite repeat_app, skipn_app, repeat_length, Nat.sub_diag.
  rewrite skipn_all2 by (rewrite repeat_length; lia).
  reflexivity.
Qed.

Lemma read_at_length content position length :
  List.length (read_at content position length) = Z.to_nat length.
Proof.
  rewrite read_at_pad, length_app, repeat_length.
  pose proof (file_slice_length content position length). lia.
Qed.

Lemma readUIntLE_read_at content position length :
  readUIntLE (read_at content position length) 0 (Z.to_nat length)
  = le_uint_at content position length.
Proof.
  unfold readUIntLE, le_uint_at. rewrite skipn_O.
  rewrite <- (read_at_length content position length), firstn_all.
  rewrite read_at_pad. apply le_combine_app_0.
Qed.

Lemma readInt32LE_read_at content position :
  readInt32LE (read_at content position 4) 0 = le_int32_at content position.
Proof.
  unfold readInt32LE, le_int32_at.
  change 4%nat with (Z.to_nat 4). now rewrite readUIntLE_read_at.
Qed.

Lemma file_slice_prefix content n m :
  (n <= m)%nat ->
  firstn n (file_slice content 0 (Z.of_nat m)) = file_slice content 0 (Z.of_nat n).
Proof.
  intros Hnm. unfold file_slice.
  destruct (Z.of_nat (List.length content) <=? 0); [now rewrite firstn_nil|].
  rewrite !Nat2Z.id. change (Z.to_nat 0) with 0%nat. rewrite skipn_O.
  rewrite firstn_firstn. f_equal. lia.
Qed.

Lemma readUInt32LE_header content :
  readUInt32LE (read_at content 0 HEADER_SIZE) 0 = le_uint_at content 0 4.
Proof.
  unfold readUInt32LE, readUIntLE, le_uint_at. rewrite skipn_O.
  rewrite read_at_pad, le_combine_firstn, le_combine_app_0.
  rewrite <- le_combine_firstn.
  change (le_combine (firstn 4 (file_slice content 0 (Z.of_nat 64)))
          = le_combine (file_slice content 0 (Z.of_nat 4))).
  now rewrite file_slice_prefix by lia.
Qed.

Lemma le_uint_at_range content position width :
  0 <= le_uint_at content position width < 2 ^ (8 * width) \/ width < 0.
Proof.
  destruct (Z.ltb_spec width 0) as [Hneg|Hpos]; [now right|left].
  unfold le_uint_at.
  pose proof (le_combine_bound (file_slice content position width)) as Hb.
  pose proof (file_slice_length content position width) as Hl.
  split; [lia|].
  eapply Z.lt_le_trans; [apply Hb|].
  apply Z.pow_le_mono_r; lia.
Qed.

(** *** The primitives, as equations on worlds *)

Lemma bind_returned {A B} (m : M A) (k : A -> M B) w a w' :
  m w = (Returned a, w') -> bind m k w = k a w'.
Proof. unfold bind. now intros ->. Qed.

Lemma bind_thrown {A B} (m : M A) (k : A -> M B) w e w' :
  m w = (Thrown e, w') -> bind m k w = (Thrown e, w').
Proof. unfold bind. now intros ->. Qed.

Lemma fs_open_some disk p n w :
  disk p = Some n ->
  fs_open disk p w =
    (Returned (mkHandle (List.length (cursors w)) n),
     mkWorld (cursors w ++ [0]) (trace w ++ [Open p (Some (List.length (cursors w)))])).
Proof. unfold fs_open. now intros ->. Qed.

Lemma fs_open_none disk p w :
  disk p = None ->
  fs_open disk p w = (Thrown (ENOENT p), mkWorld (cursors w) (trace w ++ [Open p None])).
Proof. unfold fs_open. now intros ->. Qed.

Lemma FileHandle_read_fresh h content length position w :
  target h = RegularFile content -> 0 < length -> 0 <= position ->
  FileHandle_read h (Buffer_alloc length) 0 length position w =
    (Returned (read_at content position length),
     mkWorld (cursors w) (trace w ++ [Read (fd h) position length])).
Proof.
  intros Ht Hlen Hpos. unfold FileHandle_read, bind, emit, ret.
  replace (Z.of_nat (List.length (Buffer_alloc length))) with length
    by (unfold Buffer_alloc; rewrite repeat_length; lia).
  destruct (Z.eqb_spec length 0); [lia|].
  replace (0 <? 0) with false by reflexivity.
  replace (length <? 0) with false by (symmetry; apply Z.ltb_ge; lia).
  replace (length <? 0 + length) with false by (symmetry; apply Z.ltb_ge; lia).
  replace (position <? -1) with false by (symmetry; apply Z.ltb_ge; lia).
  cbn [orb]. rewrite Ht.
  destruct (Z.eqb_spec position (-1)); [lia|].
  reflexivity.
Qed.

Lemma FileHandle_read_directory h buf length position w :
  target h = Directory -> 0 < length -> length <= Z.of_nat (List.length buf) ->
  -1 <= position ->
  FileHandle_read h buf 0 length position w =
    (Thrown EISDIR, mkWorld (cursors w) (trace w ++ [Read (fd h) position length])).
Proof.
  intros Ht Hlen Hbuf Hpos. unfold FileHandle_read, bind, emit, throw.
  destruct (Z.eqb_spec length 0); [lia|].
  destruct (Z.eqb_spec (Z.of_nat (List.length buf)) 0); [lia|].
  replace (0 <? 0) with false by reflexivity.
  replace (length <? 0) with false by (symmetry; apply Z.ltb_ge; lia).
  replace (Z.of_nat (List.length buf) <? 0 + length) with false
    by (symmetry; apply Z.ltb_ge; lia).
  replace (position <? -1) with false by (symmetry; apply Z.ltb_ge; lia).
  cbn [orb]. now rewrite Ht.
Qed.

(** *** Offsets inside a bundle group *)

Lemma group_offset_range a packetSize :
  0 < packetSize -> 0 <= a - a / packetSize * packetSize < packetSize.
Proof.
  intros Hp. pose proof (Z.mod_pos_bound a packetSize Hp).
  pose proof (Z.div_mod a packetSize). lia.
Qed.

Lemma group_offset_mod a packetSize :
  0 < packetSize -> a - a / packetSize * packetSize = a mod packetSize.
Proof. intros Hp. pose proof (Z.div_mod a packetSize). lia. Qed.

(* ------------------------------------------------------------------------- *)
(** ** Runs of [readTileV1]                                                   *)
(* ------------------------------------------------------------------------- *)

Ltac side := first [eassumption | reflexivity | lia].

Ltac tidy := cbv beta; cbn [cursors trace fd target].

Ltac step_open :=
  first [ erewrite bind_returned by (eapply fs_open_some; side)
        | erewrite bind_thrown by (eapply fs_open_none; side) ];
  tidy.

Ltac step_read :=
  first [ erewrite bind_returned by (eapply FileHandle_read_fresh; side)
        | erewrite bind_thrown by (eapply FileHandle_read_directory; side) ];
  tidy.

Ltac step_emit :=
  try unfold console; try unfold FileHandle_close;
  erewrite bind_returned by (unfold emit; reflexivity);
  tidy.

Lemma v1_slot_nonneg column row level ps :
  0 < ps ->
  let info := getBundleInfo column row level None in
  0 <= ps * (column - cGroup info) + (row - rGroup info).
Proof.
  intros Hps. unfold getBundleInfo. cbn [cGroup rGroup or_default].
  pose proof (group_offset_range column 128 eq_refl).
  pose proof (group_offset_range row 128 eq_refl).
  nia.
Qed.

Section ReadTileV1.

Variable path_join : list string -> string.
Variable disk : filesystem.
Variables (dir : string) (level column row : Z) (packetSize : option Z).
Variable w : world.

Let ps := or_default 128 packetSize.
Let info := getBundleInfo column row level None.
Let bundlxPath := path_join [dir; L info; bundle_file info ".bundlx"].
Let bundlePath := path_join [dir; L info; bundle_file info ".bundle"].
Let slotIndex := ps * (column - cGroup info) + (row - rGroup info).
Let h := List.length (cursors w).

Hypothesis Hps : 0 < ps.

Variable index_content : list byte.
Hypothesis Hindex : disk bundlxPath = Some (RegularFile index_content).

Let offset := le_uint_at index_content (16 + 5 * slotIndex) 5.
Let index_events : list event :=
  [Open bundlxPath (Some h); Read h (16 + 5 * slotIndex) 5; Close h].

Lemma readTileV1_zero_record :
  offset = 0 ->
  readTileV1 path_join disk dir level column row packetSize w =
    (Returned None,
     mkWorld (cursors w ++ [0])
       (trace w ++ index_events ++ [Console (WarnTileMissingV1 level column row)])).
Proof.
  intros Hoff. pose proof (v1_slot_nonneg column row level ps Hps) as Hslot.
  cbv zeta in Hslot. fold info slotIndex in Hslot.
  unfold readTileV1. cbv zeta.
  step_open. fold ps info slotIndex.
  step_read. step_emit.
  change 5%nat with (Z.to_nat 5). rewrite readUIntLE_read_at.
  fold ps info slotIndex offset. rewrite Hoff. cbn [Z.eqb].
  step_emit. unfold ret, index_events.
  rewrite <- !app_assoc. reflexivity.
Qed.

Lemma v1_offset_range : 0 <= offset < 2 ^ 40.
Proof.
  destruct (le_uint_at_range index_content (16 + 5 * slotIndex) 5) as [Hr|Hr];
    [exact Hr | lia].
Qed.

(** The common start of every run that gets past the index file. *)
Ltac v1_past_index :=
  pose proof (v1_slot_nonneg column row level ps Hps) as Hslot;
  cbv zeta in Hslot; fold info slotIndex in Hslot;
  pose proof v1_offset_range as Hrange;
  unfold readTileV1; cbv zeta;
  step_open; fold ps info slotIndex;
  step_read; step_emit;
  change 5%nat with (Z.to_nat 5); rewrite readUIntLE_read_at;
  fold ps info slotIndex offset;
  destruct (Z.eqb_spec offset 0); [contradiction|].

Lemma readTileV1_data_missing :
  offset <> 0 -> disk bundlePath = None ->
  readTileV1 path_join disk dir level column row packetSize w =
    (Thrown (ENOENT bundlePath),
     mkWorld (cursors w ++ [0])
       (trace w ++ index_events ++ [Open bundlePath None])).
Proof.
  intros Hoff Hdata. v1_past_index.
  step_open. unfold index_events.
  rewrite <- !app_assoc. reflexivity.
Qed.

Lemma readTileV1_data_directory :
  offset <> 0 -> disk bundlePath = Some Directory ->
  readTileV1 path_join disk dir level column row packetSize w =
    (Thrown EISDIR,
     mkWorld ((cursors w ++ [0]) ++ [0])
       (trace w ++ index_events
          ++ [Open bundlePath (Some (S h)); Read (S h) offset 4])).
Proof.
  intros Hoff Hdata. v1_past_index.
  step_open. rewrite length_app, Nat.add_1_r. fold h.
  erewrite bind_thrown
    by (eapply FileHandle_read_directory; first [reflexivity | cbn; lia | lia]).
  unfold index_events. cbn [cursors trace fd].
  rewrite <- !app_assoc. reflexivity.
Qed.

Variable data_content : list byte.
Hypothesis Hdata : disk bundlePath = Some (RegularFile data_content).

Let length := le_int32_at data_content offset.

Lemma readTileV1_invalid_length :
  offset <> 0 -> length <= 0 \/ 1000000 < length ->
  readTileV1 path_join disk dir level column row packetSize w =
    (Returned None,
     mkWorld ((cursors w ++ [0]) ++ [0])
       (trace w ++ index_events
          ++ [Open bundlePath (Some (S h)); Read (S h) offset 4;
              Console (WarnInvalidLengthV1 length); Close (S h)])).
Proof.
  intros Hoff Hlen. v1_past_index.
  step_open. rewrite length_app, Nat.add_1_r. fold h.
  step_read. rewrite readInt32LE_read_at. fold length.
  replace ((length <=? 0) || (length >? 1000000)) with true
    by (symmetry; apply orb_true_iff; rewrite Z.leb_le, Z.gtb_ltb, Z.ltb_lt; lia).
  step_emit. step_emit. unfold ret, index_events.
  rewrite <- !app_assoc. reflexivity.
Qed.

Lemma readTileV1_tile :
  offset <> 0 -> 0 < length <= 1000000 ->
  readTileV1 path_join disk dir level column row packetSize w =
    (Returned (Some (read_at data_content (offset + 4) length)),
     mkWorld ((cursors w ++ [0]) ++ [0])
       (trace w ++ index_events
          ++ [Open bundlePath (Some (S h)); Read (S h) offset 4;
              Read (S h) (offset + 4) length; Close (S h)])).
Proof.
  intros Hoff Hlen. v1_past_index.
  step_open. rewrite length_app, Nat.add_1_r. fold h.
  step_read. rewrite readInt32LE_read_at. fold length.
  replace ((length <=? 0) || (length >? 1000000)) with false
    by (symmetry; apply orb_false_iff; rewrite Z.leb_gt, Z.gtb_ltb, Z.ltb_ge; lia).
  step_read. step_emit. unfold ret, index_events.
  rewrite <- !app_assoc. reflexivity.
Qed.

End ReadTileV1.

Section ReadTileV1Index.

Variable path_join : list string -> string.
Variable disk : filesystem.
Variables (dir : string) (level column row : Z) (packetSize : option Z).
Variable w : world.

Let ps := or_default 128 packetSize.
Let info := getBundleInfo column row level None.
Let bundlxPath := path_join [dir; L info; bundle_file info ".bundlx"].
Let slotIndex := ps * (column - cGroup info) + (row - rGroup info).
Let h := List.length (cursors w).

Lemma readTileV1_index_missing :
  disk bundlxPath = None ->
  readTileV1 path_join disk dir level column row packetSize w =
    (Thrown (ENOENT bundlxPath),
     mkWorld (cursors w) (trace w ++ [Open bundlxPath None])).
Proof.
  intros Hindex. unfold readTileV1. cbv zeta. step_open. reflexivity.
Qed.

Lemma readTileV1_index_directory :
  0 < ps -> disk bundlxPath = Some Directory ->
  readTileV1 path_join disk dir level column row packetSize w =
    (Thrown EISDIR,
     mkWorld (cursors w ++ [0])
       (trace w ++ [Open bundlxPath (Some h); Read h (16 + 5 * slotIndex) 5])).
Proof.
  intros Hps Hindex.
  pose proof (v1_slot_nonneg column row level ps Hps) as Hslot.
  cbv zeta in Hslot. fold info slotIndex in Hslot.
  unfold readTileV1. cbv zeta. step_open. fold ps info slotIndex.
  erewrite bind_thrown
    by (eapply FileHandle_read_directory; first [reflexivity | cbn; lia | lia]).
  cbn [cursors trace fd]. rewrite <- !app_assoc. reflexivity.
Qed.

End ReadTileV1Index.

(* ------------------------------------------------------------------------- *)
(** ** Runs of [readTileV2]                                                   *)
(* ------------------------------------------------------------------------- *)

Lemma FileHandle_read_world h buf offset length position w :
  exists r cs,
    FileHandle_read h buf offset length position w =
      (r, mkWorld cs (trace w ++ [Read (fd h) position length])).
Proof.
  unfold FileHandle_read, bind, emit, ret, throw. cbn [cursors trace].
  destruct (length =? 0); [now eauto|].
  destruct (Z.of_nat (List.length buf) =? 0); [now eauto|].
  destruct ((offset <? 0) || (length <? 0)
            || (Z.of_nat (List.length buf) <? offset + length)
            || (position <? -1)); [now eauto|].
  destruct (target h); [|now eauto].
  destruct (position =? -1); cbn [cursors trace]; eauto.
Qed.

Lemma guarded_open_some disk p n (handler : error -> M (option FileHandle)) w :
  disk p = Some n ->
  try_catch (fd <- fs_open disk p ;; ret (Some fd)) handler w =
    (Returned (Some (mkHandle (List.length (cursors w)) n)),
     mkWorld (cursors w ++ [0]) (trace w ++ [Open p (Some (List.length (cursors w)))])).
Proof.
  intros Hp. unfold try_catch.
  erewrite bind_returned by (eapply fs_open_some; eassumption).
  reflexivity.
Qed.

Lemma guarded_open_none disk p d w :
  disk p = None ->
  try_catch (fd <- fs_open disk p ;; ret (Some fd))
            (fun _ => console d ;;; ret None) w =
    (Returned None, mkWorld (cursors w) (trace w ++ [Open p None; Console d])).
Proof.
  intros Hp. unfold try_catch.
  erewrite bind_thrown by (eapply fs_open_none; eassumption).
  unfold console, emit, bind, ret. cbn [cursors trace].
  now rewrite <- app_assoc.
Qed.

Lemma v2_slot_nonneg column row level ps :
  0 < ps ->
  let info := getBundleInfo column row level (Some ps) in
  0 <= ps * (row - rGroup info) + (column - cGroup info).
Proof.
  intros Hps. unfold getBundleInfo. cbn [cGroup rGroup or_default].
  pose proof (group_offset_range column ps Hps).
  pose proof (group_offset_range row ps Hps).
  nia.
Qed.

Section ReadTileV2.

Variable path_join : list string -> string.
Variable disk : filesystem.
Variables (dir : string) (column row level : Z) (packetSize : option Z).
Variable w : world.

Let ps := or_default 128 packetSize.
Let info := getBundleInfo column row level (Some ps).
Let bundlePath := path_join [dir; L info; bundle_file info ".bundle"].
Let slotIndex := ps * (row - rGroup info) + (column - cGroup info).
Let recordOffset := 64 + 8 * slotIndex.
Let h := List.length (cursors w).
Let hello := Console (LogReadTileV2 column row level bundlePath).

Lemma readTileV2_missing :
  disk bundlePath = None ->
  readTileV2 path_join disk dir column row level packetSize w =
    (Returned None,
     mkWorld (cursors w)
       (trace w ++ [hello; Open bundlePath None;
                    Console (WarnBundleNotFound bundlePath)])).
Proof.
  intros Hdisk. unfold readTileV2. cbv zeta. step_emit.
  erewrite bind_returned by (eapply guarded_open_none; eassumption).
  unfold ret, hello. cbn [cursors trace]. rewrite <- !app_assoc. reflexivity.
Qed.

Hypothesis Hps : 0 < ps.

Ltac v2_opened :=
  pose proof (v2_slot_nonneg column row level ps Hps) as Hslot;
  cbv zeta in Hslot; fold info slotIndex in Hslot;
  unfold readTileV2; cbv zeta; step_emit;
  erewrite bind_returned by (eapply guarded_open_some; eassumption);
  cbv beta iota; cbn [cursors trace]; fold h;
  unfold try_finally, HEADER_SIZE, RECORD_SIZE.

Lemma readTileV2_directory :
  disk bundlePath = Some Directory ->
  readTileV2 path_join disk dir column row level packetSize w =
    (Thrown EISDIR,
     mkWorld (cursors w ++ [0])
       (trace w ++ [hello; Open bundlePath (Some h); Read h 0 64; Close h])).
Proof.
  intros Hdisk. v2_opened.
  erewrite bind_thrown
    by (eapply FileHandle_read_directory; first [reflexivity | cbn; lia | lia]).
  unfold FileHandle_close, emit, hello. cbn [cursors trace fd].
  rewrite <- !app_assoc. reflexivity.
Qed.

Variable content : list byte.
Hypothesis Hdisk : disk bundlePath = Some (RegularFile content).

Let version := le_uint_at content 0 4.
Let dataOffset := le_int32_at content recordOffset.
Let tileSize := le_int32_at content (dataOffset - 4).

Lemma readTileV2_unsupported_version :
  version <> 3 ->
  readTileV2 path_join disk dir column row level packetSize w =
    (Returned None,
     mkWorld (cursors w ++ [0])
       (trace w ++ [hello; Open bundlePath (Some h); Read h 0 64;
                    Console (WarnUnsupportedVersion version bundlePath);
                    Close h])).
Proof.
  intros Hv. v2_opened.
  change 64 with HEADER_SIZE at 1 2.
  step_read. rewrite readUInt32LE_header. fold version.
  destruct (Z.eqb_spec version 3); [contradiction|]. cbn [negb].
  step_emit. unfold ret, FileHandle_close, emit, hello. cbn [cursors trace fd].
  rewrite <- !app_assoc. reflexivity.
Qed.

Ltac v2_past_header :=
  v2_opened;
  change 64 with HEADER_SIZE at 1 2;
  step_read; rewrite readUInt32LE_header; fold version;
  destruct (Z.eqb_spec version 3); [|contradiction]; cbn [negb];
  fold ps info slotIndex; unfold HEADER_SIZE; fold recordOffset;
  step_read; rewrite readInt32LE_read_at; fold dataOffset.

Lemma readTileV2_zero_record :
  version = 3 -> dataOffset = 0 ->
  readTileV2 path_join disk dir column row level packetSize w =
    (Returned None,
     mkWorld (cursors w ++ [0])
       (trace w ++ [hello; Open bundlePath (Some h); Read h 0 64;
                    Read h recordOffset 4;
                    Console (WarnTileNotFoundV2 column row); Close h])).
Proof.
  intros Hv Hd. v2_past_header.
  destruct (Z.eqb_spec dataOffset 0); [|contradiction].
  step_emit. unfold ret, FileHandle_close, emit, hello. cbn [cursors trace fd].
  rewrite <- !app_assoc. reflexivity.
Qed.

Lemma readTileV2_invalid_size :
  version = 3 -> 4 <= dataOffset -> tileSize <= 0 ->
  readTileV2 path_join disk dir column row level packetSize w =
    (Returned None,
     mkWorld (cursors w ++ [0])
       (trace w ++ [hello; Open bundlePath (Some h); Read h 0 64;
                    Read h recordOffset 4; Read h (dataOffset - 4) 4;
                    Console (WarnInvalidSizeV2 column row tileSize); Close h])).
Proof.
  intros Hv Hd Hsize. v2_past_header.
  destruct (Z.eqb_spec dataOffset 0); [lia|].
  step_read. rewrite readInt32LE_read_at. fold tileSize.
  destruct (Z.leb_spec tileSize 0); [|lia].
  step_emit. unfold ret, FileHandle_close, emit, hello. cbn [cursors trace fd].
  rewrite <- !app_assoc. reflexivity.
Qed.

Lemma readTileV2_tile :
  version = 3 -> 4 <= dataOffset -> 0 < tileSize ->
  readTileV2 path_join disk dir column row level packetSize w =
    (Returned (Some (read_at content dataOffset tileSize)),
     mkWorld (cursors w ++ [0])
       (trace w ++ [hello; Open bundlePath (Some h); Read h 0 64;
                    Read h recordOffset 4; Read h (dataOffset - 4) 4;
                    Read h dataOffset tileSize; Close h])).
Proof.
  intros Hv Hd Hsize. v2_past_header.
  destruct (Z.eqb_spec dataOffset 0); [lia|].
  step_read. rewrite readInt32LE_read_at. fold tileSize.
  destruct (Z.leb_spec tileSize 0); [lia|].
  step_read. unfold ret, FileHandle_close, emit, hello. cbn [cursors trace fd].
  rewrite <- !app_assoc. reflexivity.
Qed.

(** Whatever the record holds, when it is not zero the next thing the
    decoder does is read four bytes at [dataOffset - 4]. *)
Lemma readTileV2_follows_record :
  version = 3 -> dataOffset <> 0 ->
  exists r cs rest,
    readTileV2 path_join disk dir column row level packetSize w =
      (r, mkWorld cs
            (trace w ++ [hello; Open bundlePath (Some h); Read h 0 64;
                         Read h recordOffset 4; Read h (dataOffset - 4) 4]
               ++ rest ++ [Close h])).
Proof.
  intros Hv Hd. v2_past_header.
  destruct (Z.eqb_spec dataOffset 0); [contradiction|].
  match goal with
  | |- context [bind (FileHandle_read ?hd ?b ?o ?l ?p) ?k ?w0] =>
      destruct (FileHandle_read_world hd b o l p w0) as (r1 & cs1 & E1);
      unfold bind at 1; rewrite E1
  end.
  cbn [cursors trace fd] in *.
  destruct r1 as [lengthBuf|err].
  - destruct (readInt32LE lengthBuf 0 <=? 0).
    + step_emit. unfold ret, FileHandle_close, emit, hello. cbn [cursors trace fd].
      eexists _, _, [_]. rewrite <- !app_assoc. reflexivity.
    + match goal with
      | |- context [bind (FileHandle_read ?hd ?b ?o ?l ?p) ?k ?w0] =>
          destruct (FileHandle_read_world hd b o l p w0) as (r2 & cs2 & E2);
          unfold bind at 1; rewrite E2
      end.
      cbn [cursors trace fd] in *.
      destruct r2; unfold ret, FileHandle_close, emit, hello; cbn [cursors trace fd];
        eexists _, _, [_]; rewrite <- !app_assoc; reflexivity.
  - unfold FileHandle_close, emit, hello. cbn [cursors trace fd].
    eexists _, _, []. rewrite <- !app_assoc. reflexivity.
Qed.

End ReadTileV2.

(* ------------------------------------------------------------------------- *)
(** ** Traces                                                                 *)
(* ------------------------------------------------------------------------- *)

Lemma events_since_app w cs evs :
  events_since w (mkWorld cs (trace w ++ evs)) = evs.
Proof.
  unfold events_since. cbn [trace].
  rewrite skipn_app, Nat.sub_diag, skipn_all. reflexivity.
Qed.

Lemma S_eqb_self h : Nat.eqb h (S h) = false.
Proof. apply Nat.eqb_neq. lia. Qed.

(* ------------------------------------------------------------------------- *)
(** ** Address resolution                                                     *)
(* ------------------------------------------------------------------------- *)

Lemma group_floor a packetSize :
  0 < packetSize ->
  let g := a / packetSize * packetSize in
  g mod packetSize = 0 /\ g <= a < g + packetSize.
Proof.
  intros Hp. cbv zeta. split.
  - apply Z.mod_mul. lia.
  - pose proof (group_offset_range a packetSize Hp). lia.
Qed.

(** C7.  With a positive packet size and a non-negative address (all of
    them safe integers), [getBundleInfo] returns the group coordinates
    [floor(row / packetSize) * packetSize] and
    [floor(column / packetSize) * packetSize] (the multiple of the packet
    size at or below the coordinate), and the three name parts are ['L']
    with the level in decimal padded with zeros to two digits, ['R'] and
    ['C'] with the group coordinates in lowercase hexadecimal padded with
    zeros to four digits.  When row and column are below the packet size
    the name parts are [R0000] and [C0000]. *)
Theorem getBundleInfo_resolves (column row level packetSize : Z) :
  0 < packetSize <= MAX_SAFE_INTEGER ->
  0 <= level <= MAX_SAFE_INTEGER ->
  0 <= row <= MAX_SAFE_INTEGER ->
  0 <= column <= MAX_SAFE_INTEGER ->
  let info := getBundleInfo column row level (Some packetSize) in
  (rGroup info = row / packetSize * packetSize /\
   rGroup info mod packetSize = 0 /\
   rGroup info <= row < rGroup info + packetSize) /\
  (cGroup info = column / packetSize * packetSize /\
   cGroup info mod packetSize = 0 /\
   cGroup info <= column < cGroup info + packetSize) /\
  (exists l r c,
      L info = String "L" l /\ JSString.zero_padded 10 2 level l /\
      R info = String "R" r /\ JSString.zero_padded 16 4 (rGroup info) r /\
      C info = String "C" c /\ JSString.zero_padded 16 4 (cGroup info) c) /\
  (row < packetSize -> column < packetSize ->
   rGroup info = 0 /\ cGroup info = 0 /\ R info = "R0000" /\ C info = "C0000").
Proof.
  intros [Hp _] [Hl _] [Hr _] [Hc _]. cbv zeta.
  unfold getBundleInfo. cbn [L R C rGroup cGroup or_default].
  pose proof (group_floor row packetSize Hp) as [Hr1 Hr2].
  pose proof (group_floor column packetSize Hp) as [Hc1 Hc2].
  assert (Hrg : 0 <= row / packetSize * packetSize)
    by (apply Z.mul_nonneg_nonneg; [apply Z.div_pos|]; lia).
  assert (Hcg : 0 <= column / packetSize * packetSize)
    by (apply Z.mul_nonneg_nonneg; [apply Z.div_pos|]; lia).
  split; [|split; [|split]].
  - auto.
  - auto.
  - exists (JSString.padStart (JSString.toString level 10) 2 "0"),
           (JSString.padStart (JSString.toString (row / packetSize * packetSize) 16) 4 "0"),
           (JSString.padStart (JSString.toString (column / packetSize * packetSize) 16) 4 "0").
    split; [reflexivity|]. split; [apply JSStringFacts.padStart_toString; lia|].
    split; [reflexivity|]. split; [apply JSStringFacts.padStart_toString; lia|].
    split; [reflexivity|]. apply JSStringFacts.padStart_toString; lia.
  - intros Hrow Hcol. rewrite !Z.div_small by lia. auto.
Qed.

Lemma getBundleInfo_resolves_witness :
  let info := getBundleInfo 5 200 12 (Some 128) in
  (rGroup info = 200 / 128 * 128 /\
   rGroup info mod 128 = 0 /\
   rGroup info <= 200 < rGroup info + 128) /\
  (cGroup info = 5 / 128 * 128 /\
   cGroup info mod 128 = 0 /\
   cGroup info <= 5 < cGroup info + 128) /\
  (exists l r c,
      L info = String "L" l /\ JSString.zero_padded 10 2 12 l /\
      R info = String "R" r /\ JSString.zero_padded 16 4 (rGroup info) r /\
      C info = String "C" c /\ JSString.zero_padded 16 4 (cGroup info) c) /\
  (200 < 128 -> 5 < 128 ->
   rGroup info = 0 /\ cGroup info = 0 /\ R info = "R0000" /\ C info = "C0000").
Proof.
  apply (getBundleInfo_resolves 5 200 12 128); unfold MAX_SAFE_INTEGER; lia.
Defined.

Example getBundleInfo_row_200 :
  getBundleInfo 5 200 12 (Some 128) = mkBundleInfo "L12" "R0080" "C0000" 128 0.
Proof. reflexivity. Qed.

Example getBundleInfo_wide :
  getBundleInfo 70000 200000 112 (Some 128)
  = mkBundleInfo "L112" "R30d00" "C11100" 199936 69888.
Proof. reflexivity. Qed.

(* ------------------------------------------------------------------------- *)
(** ** The V1 decoder and its index file                                      *)
(* ------------------------------------------------------------------------- *)

(** X21.  What [readTileV1] does with its index file, for any positive
    packet size.  The file is the [.bundlx] of the group that
    [getBundleInfo(x, y, z)] computes with packet size 128, not with the
    packet size of the call.  When it is a regular file the decoder makes
    exactly one read through its handle: 5 bytes at byte
    [16 + 5 * slotIndex], where
    [slotIndex = packetSize * (column - cGroup) + (row - rGroup)] with
    [cGroup] and [rGroup] the coordinates of that same 128-group.  The
    bytes are taken as a little-endian unsigned integer: zero ends the
    call with no tile, any other value is the position of the first read
    in the [.bundle] file. *)
Theorem readTileV1_consults_index_record
    (path_join : list string -> string) (disk : filesystem) (dir : string)
    (level column row : Z) (packetSize : option Z)
    (index_content : list byte) (w : world) :
  let ps := or_default 128 packetSize in
  let info := getBundleInfo column row level None in
  let bundlx := path_join [dir; L info; bundle_file info ".bundlx"] in
  let bundle := path_join [dir; L info; bundle_file info ".bundle"] in
  let slotIndex := ps * (column - cGroup info) + (row - rGroup info) in
  let record := le_uint_at index_content (16 + 5 * slotIndex) 5 in
  let h := List.length (cursors w) in
  let run := readTileV1 path_join disk dir level column row packetSize w in
  0 < ps ->
  disk bundlx = Some (RegularFile index_content) ->
  (cGroup info = column / 128 * 128 /\ rGroup info = row / 128 * 128) /\
  0 <= record < 2 ^ 40 /\
  (exists rest,
      events_since w (snd run) =
        Open bundlx (Some h) :: Read h (16 + 5 * slotIndex) 5 :: Close h :: rest
      /\ reads_of h rest = []) /\
  (record = 0 -> fst run = Returned None) /\
  (record <> 0 -> forall n, disk bundle = Some n ->
     exists rest,
       events_since w (snd run) =
         [Open bundlx (Some h); Read h (16 + 5 * slotIndex) 5; Close h;
          Open bundle (Some (S h)); Read (S h) record 4] ++ rest).
Proof.
  intros ps info bundlx bundle slotIndex record h run Hps Hindex.
  assert (Hrange : 0 <= record < 2 ^ 40)
    by (destruct (le_uint_at_range index_content (16 + 5 * slotIndex) 5);
        [assumption|lia]).
  split; [split; reflexivity|].
  split; [exact Hrange|].
  destruct (Z.eq_dec record 0) as [Hz|Hnz].
  - (* an empty slot *)
    subst run.
    rewrite (readTileV1_zero_record path_join disk dir level column row packetSize
               w Hps index_content Hindex Hz).
    cbn [fst snd]. rewrite events_since_app.
    split; [eexists; split; [reflexivity|reflexivity]|].
    split; [reflexivity|contradiction].
  - destruct (disk bundle) as [[data_content|]|] eqn:Hdata.
    + (* the data file is there *)
      set (length := le_int32_at data_content record).
      destruct (Z_le_gt_dec length 0) as [Hlow|Hpos];
        [|destruct (Z_le_gt_dec length 1000000) as [Hok|Hbig]].
      * subst run.
        rewrite (readTileV1_invalid_length path_join disk dir level column row
                   packetSize w Hps index_content Hindex data_content Hdata Hnz
                   (or_introl Hlow)).
        cbn [fst snd]. rewrite events_since_app.
        split; [eexists; split; [reflexivity|]|].
        { cbn [reads_of]. now rewrite S_eqb_self. }
        split; [contradiction|]. intros _ n _. eexists. reflexivity.
      * subst run.
        rewrite (readTileV1_tile path_join disk dir level column row
                   packetSize w Hps index_content Hindex data_content Hdata Hnz
                   (conj (Z.gt_lt _ _ Hpos) Hok)).
        cbn [fst snd]. rewrite events_since_app.
        split; [eexists; split; [reflexivity|]|].
        { cbn [reads_of]. now rewrite S_eqb_self. }
        split; [contradiction|]. intros _ n _. eexists. reflexivity.
      * subst run.
        rewrite (readTileV1_invalid_length path_join disk dir level column row
                   packetSize w Hps index_content Hindex data_content Hdata Hnz
                   (or_intror (Z.gt_lt _ _ Hbig))).
        cbn [fst snd]. rewrite events_since_app.
        split; [eexists; split; [reflexivity|]|].
        { cbn [reads_of]. now rewrite S_eqb_self. }
        split; [contradiction|]. intros _ n _. eexists. reflexivity.
    + (* a directory in its place *)
      subst run.
      rewrite (readTileV1_data_directory path_join disk dir level column row
                 packetSize w Hps index_content Hindex Hnz Hdata).
      cbn [fst snd]. rewrite events_since_app.
      split; [eexists; split; [reflexivity|]|].
      { cbn [reads_of]. now rewrite S_eqb_self. }
      split; [contradiction|]. intros _ n _. exists []. reflexivity.
    + (* no data file *)
      subst run.
      rewrite (readTileV1_data_missing path_join disk dir level column row
                 packetSize w Hps index_content Hindex Hnz Hdata).
      cbn [fst snd]. rewrite events_since_app.
      split; [eexists; split; [reflexivity|reflexivity]|].
      split; [contradiction|]. intros _ n Hn. discriminate Hn.
Qed.

Lemma readTileV1_consults_index_record_witness :
  let disk :=
    Sample.two_files "/c/L01/R0080C0000.bundlx" (RegularFile (Sample.bundlx 840 8))
                     "/c/L01/R0080C0000.bundle"
                     (RegularFile (Sample.bundle_v1 4 Sample.png)) in
  let info := getBundleInfo 3 200 1 None in
  let run := readTileV1 Sample.join disk "/c" 1 3 200 (Some 256) Sample.fresh in
  let record := le_uint_at (Sample.bundlx 840 8)
                  (16 + 5 * (256 * (3 - cGroup info) + (200 - rGroup info))) 5 in
  (cGroup info = 3 / 128 * 128 /\ rGroup info = 200 / 128 * 128) /\
  0 <= record < 2 ^ 40 /\
  (exists rest,
      events_since Sample.fresh (snd run) =
        Open "/c/L01/R0080C0000.bundlx" (Some 0%nat)
          :: Read 0 (16 + 5 * (256 * (3 - cGroup info) + (200 - rGroup info))) 5
          :: Close 0 :: rest
      /\ reads_of 0 rest = []) /\
  (record = 0 -> fst run = Returned None) /\
  (record <> 0 -> forall n, disk "/c/L01/R0080C0000.bundle" = Some n ->
     exists rest,
       events_since Sample.fresh (snd run) =
         [Open "/c/L01/R0080C0000.bundlx" (Some 0%nat);
          Read 0 (16 + 5 * (256 * (3 - cGroup info) + (200 - rGroup info))) 5;
          Close 0;
          Open "/c/L01/R0080C0000.bundle" (Some 1%nat); Read 1 record 4] ++ rest).
Proof.
  apply (readTileV1_consults_index_record Sample.join
           (Sample.two_files "/c/L01/R0080C0000.bundlx"
              (RegularFile (Sample.bundlx 840 8))
              "/c/L01/R0080C0000.bundle"
              (RegularFile (Sample.bundle_v1 4 Sample.png)))
           "/c" 1 3 200 (Some 256) (Sample.bundlx 840 8) Sample.fresh).
  - reflexivity.
  - reflexivity.
Defined.

Example readTileV1_packet_256_sample :
  readTileV1 Sample.join
    (Sample.two_files "/c/L01/R0080C0000.bundlx" (RegularFile (Sample.bundlx 840 8))
                      "/c/L01/R0080C0000.bundle"
                      (RegularFile (Sample.bundle_v1 4 Sample.png)))
    "/c" 1 3 200 (Some 256) Sample.fresh
  = (Returned (Some Sample.png),
     mkWorld [0; 0]
       [Open "/c/L01/R0080C0000.bundlx" (Some 0%nat); Read 0 4216 5; Close 0;
        Open "/c/L01/R0080C0000.bundle" (Some 1%nat); Read 1 8 4; Read 1 12 4;
        Close 1]).
Proof. vm_compute. reflexivity. Qed.

Example readTileV1_sample_tile :
  readTileV1 Sample.join (Sample.v1_cache 4 Sample.png) "/c" 1 1 1 None Sample.fresh
  = (Returned (Some Sample.png),
     mkWorld [0; 0]
       [Open "/c/L01/R0000C0000.bundlx" (Some 0%nat); Read 0 661 5; Close 0;
        Open "/c/L01/R0000C0000.bundle" (Some 1%nat); Read 1 8 4; Read 1 12 4;
        Close 1]).
Proof. vm_compute. reflexivity. Qed.

(* ------------------------------------------------------------------------- *)
(** ** The V2 decoder and its inline records                                  *)
(* ------------------------------------------------------------------------- *)

Lemma le_int32_at_range content position :
  - 2 ^ 31 <= le_int32_at content position < 2 ^ 31.
Proof.
  unfold le_int32_at, to_int32.
  destruct (le_uint_at_range content position 4) as [Hr|Hr]; [|lia].
  change (2 ^ (8 * 4)) with (2 ^ 32) in Hr.
  destruct (Z.ltb_spec (le_uint_at content position 4) (2 ^ 31)); lia.
Qed.

(** C2.  When the [.bundle] file of the tile's group is a regular file
    with version 3, [readTileV2] reads 4 bytes at byte
    [64 + 8 * slotIndex], where
    [slotIndex = packetSize * (row - rGroup) + (column - cGroup)], which is
    [packetSize * (row mod packetSize) + column mod packetSize]: the row
    is the major operand, the column the minor one (in [readTileV1] it is
    the other way round).  The bytes are taken as a little-endian signed
    32-bit data offset: zero ends the call with no tile, any other value
    [dataOffset] makes the next read start at [dataOffset - 4]. *)
Theorem readTileV2_consults_inline_record
    (path_join : list string -> string) (disk : filesystem) (dir : string)
    (column row level : Z) (packetSize : option Z)
    (content : list byte) (w : world) :
  let ps := or_default 128 packetSize in
  let info := getBundleInfo column row level (Some ps) in
  let bundle := path_join [dir; L info; bundle_file info ".bundle"] in
  let slotIndex := ps * (row - rGroup info) + (column - cGroup info) in
  let recordOffset := 64 + 8 * slotIndex in
  let dataOffset := le_int32_at content recordOffset in
  let h := List.length (cursors w) in
  let run := readTileV2 path_join disk dir column row level packetSize w in
  0 < ps ->
  disk bundle = Some (RegularFile content) ->
  le_uint_at content 0 4 = 3 ->
  slotIndex = ps * (row mod ps) + column mod ps /\
  - 2 ^ 31 <= dataOffset < 2 ^ 31 /\
  exists rest,
    events_since w (snd run) =
      [Console (LogReadTileV2 column row level bundle);
       Open bundle (Some h); Read h 0 64; Read h recordOffset 4] ++ rest /\
    (dataOffset = 0 ->
     fst run = Returned None /\
     rest = [Console (WarnTileNotFoundV2 column row); Close h]) /\
    (dataOffset <> 0 ->
     exists rest', rest = Read h (dataOffset - 4) 4 :: rest').
Proof.
  intros ps info bundle slotIndex recordOffset dataOffset h run Hps Hdisk Hversion.
  split.
  { unfold slotIndex, info, getBundleInfo. cbn [rGroup cGroup or_default].
    now rewrite !group_offset_mod by assumption. }
  split; [apply le_int32_at_range|].
  destruct (Z.eq_dec dataOffset 0) as [Hz|Hnz].
  - subst run.
    rewrite (readTileV2_zero_record path_join disk dir column row level packetSize
               w Hps content Hdisk Hversion Hz).
    cbn [fst snd]. rewrite events_since_app.
    eexists. split; [reflexivity|].
    split; [intros _; split; reflexivity|contradiction].
  - destruct (readTileV2_follows_record path_join disk dir column row level
                packetSize w Hps content Hdisk Hversion Hnz)
      as (r & cs & rest & Hrun).
    subst run. rewrite Hrun.
    cbn [fst snd]. rewrite events_since_app.
    eexists. split; [reflexivity|].
    split; [contradiction|]. intros _. eexists. reflexivity.
Qed.

Lemma readTileV2_consults_inline_record_witness :
  let disk := Sample.v2_cache 4 Sample.png in
  let run := readTileV2 Sample.join disk "/c" 1 1 1 (Some 128) Sample.fresh in
  let dataOffset := le_int32_at (Sample.bundle_v2 3 129 4 Sample.png) 1096 in
  128 * (1 - 0) + (1 - 0) = 128 * (1 mod 128) + 1 mod 128 /\
  - 2 ^ 31 <= dataOffset < 2 ^ 31 /\
  exists rest,
    events_since Sample.fresh (snd run) =
      [Console (LogReadTileV2 1 1 1 "/c/L01/R0000C0000.bundle");
       Open "/c/L01/R0000C0000.bundle" (Some 0%nat); Read 0 0 64; Read 0 1096 4]
        ++ rest /\
    (dataOffset = 0 ->
     fst run = Returned None /\
     rest = [Console (WarnTileNotFoundV2 1 1); Close 0]) /\
    (dataOffset <> 0 ->
     exists rest', rest = Read 0 (dataOffset - 4) 4 :: rest').
Proof.
  apply (readTileV2_consults_inline_record Sample.join (Sample.v2_cache 4 Sample.png)
           "/c" 1 1 1 (Some 128) (Sample.bundle_v2 3 129 4 Sample.png) Sample.fresh).
  - reflexivity.
  - reflexivity.
  - reflexivity.
Defined.

Example readTileV2_sample_tile :
  readTileV2 Sample.join (Sample.v2_cache 4 Sample.png) "/c" 1 1 1 (Some 128)
    Sample.fresh
  = (Returned (Some Sample.png),
     mkWorld [0]
       [Console (LogReadTileV2 1 1 1 "/c/L01/R0000C0000.bundle");
        Open "/c/L01/R0000C0000.bundle" (Some 0%nat); Read 0 0 64; Read 0 1096 4;
        Read 0 1104 4; Read 0 1108 4; Close 0]).
Proof. vm_compute. reflexivity. Qed.

(** A record with the top bit set is a negative offset. *)
Example readTileV2_signed_record :
  let content := le_split 4 3 ++ Sample.zeros 60 ++ [xff; xff; xff; xff] in
  events_since Sample.fresh
    (snd (readTileV2 Sample.join
            (Sample.one_file "/c/L01/R0000C0000.bundle" (RegularFile content))
            "/c" 0 0 1 (Some 128) Sample.fresh))
  = [Console (LogReadTileV2 0 0 1 "/c/L01/R0000C0000.bundle");
     Open "/c/L01/R0000C0000.bundle" (Some 0%nat); Read 0 0 64; Read 0 64 4;
     Read 0 (-5) 4; Close 0].
Proof. vm_compute. reflexivity. Qed.

(* ------------------------------------------------------------------------- *)
(** ** Length validation                                                      *)
(* ------------------------------------------------------------------------- *)

(** C6.  The two decoders validate the 4-byte signed length differently.
    [readTileV1] returns no tile, after a console warning and without
    throwing, when the length at the data offset is [<= 0] or
    [> 1000000], and returns the tile bytes otherwise.  [readTileV2]
    returns no tile only when the length is [<= 0]; every positive
    length is accepted and that many bytes are returned. *)
Theorem length_validation_asymmetric
    (path_join : list string -> string) (disk1 disk2 : filesystem) (dir : string)
    (level column row : Z) (packetSize : option Z)
    (index_content data_content content : list byte) (w : world) :
  let ps := or_default 128 packetSize in
  let info1 := getBundleInfo column row level None in
  let bundlx := path_join [dir; L info1; bundle_file info1 ".bundlx"] in
  let bundle1 := path_join [dir; L info1; bundle_file info1 ".bundle"] in
  let slot1 := ps * (column - cGroup info1) + (row - rGroup info1) in
  let offset := le_uint_at index_content (16 + 5 * slot1) 5 in
  let length1 := le_int32_at data_content offset in
  let run1 := readTileV1 path_join disk1 dir level column row packetSize w in
  let info2 := getBundleInfo column row level (Some ps) in
  let bundle2 := path_join [dir; L info2; bundle_file info2 ".bundle"] in
  let slot2 := ps * (row - rGroup info2) + (column - cGroup info2) in
  let dataOffset := le_int32_at content (64 + 8 * slot2) in
  let length2 := le_int32_at content (dataOffset - 4) in
  let run2 := readTileV2 path_join disk2 dir column row level packetSize w in
  0 < ps ->
  disk1 bundlx = Some (RegularFile index_content) ->
  disk1 bundle1 = Some (RegularFile data_content) ->
  offset <> 0 ->
  disk2 bundle2 = Some (RegularFile content) ->
  le_uint_at content 0 4 = 3 ->
  4 <= dataOffset ->
  (length1 <= 0 \/ 1000000 < length1 ->
   fst run1 = Returned None /\
   In (Console (WarnInvalidLengthV1 length1)) (events_since w (snd run1))) /\
  (0 < length1 <= 1000000 ->
   fst run1 = Returned (Some (read_at data_content (offset + 4) length1))) /\
  (length2 <= 0 -> fst run2 = Returned None) /\
  (0 < length2 ->
   fst run2 = Returned (Some (read_at content dataOffset length2)) /\
   Z.of_nat (List.length (read_at content dataOffset length2)) = length2).
Proof.
  intros ps info1 bundlx bundle1 slot1 offset length1 run1
         info2 bundle2 slot2 dataOffset length2 run2
         Hps Hindex Hdata Hoff Hdisk Hversion Hd.
  repeat split.
  - subst run1.
    rewrite (readTileV1_invalid_length path_join disk1 dir level column row
               packetSize w Hps index_content Hindex data_content Hdata Hoff H).
    reflexivity.
  - subst run1.
    rewrite (readTileV1_invalid_length path_join disk1 dir level column row
               packetSize w Hps index_content Hindex data_content Hdata Hoff H).
    cbn [snd]. rewrite events_since_app. cbn. auto 10.
  - intros Hlen. subst run1.
    rewrite (readTileV1_tile path_join disk1 dir level column row
               packetSize w Hps index_content Hindex data_content Hdata Hoff Hlen).
    reflexivity.
  - intros Hlen. subst run2.
    rewrite (readTileV2_invalid_size path_join disk2 dir column row level
               packetSize w Hps content Hdisk Hversion Hd Hlen).
    reflexivity.
  - subst run2.
    rewrite (readTileV2_tile path_join disk2 dir column row level
               packetSize w Hps content Hdisk Hversion Hd H).
    reflexivity.
  - rewrite read_at_length. lia.
Qed.

Lemma length_validation_asymmetric_witness :
  fst (readTileV1 Sample.join (Sample.v1_cache 1000001 []) "/c" 1 1 1 None Sample.fresh)
    = Returned None /\
  exists tile,
    fst (readTileV2 Sample.join (Sample.v2_cache 1000001 []) "/c" 1 1 1 None Sample.fresh)
      = Returned (Some tile) /\
    Z.of_nat (List.length tile) = 1000001.
Proof.
  pose proof (length_validation_asymmetric Sample.join
              (Sample.v1_cache 1000001 []) (Sample.v2_cache 1000001 [])
              "/c" 1 1 1 None
              (Sample.bundlx 129 8) (Sample.bundle_v1 1000001 [])
              (Sample.bundle_v2 3 129 1000001 []) Sample.fresh) as H.
  cbv zeta in H.
  destruct H as (Hv1 & _ & _ & Hv2).
  - reflexivity.
  - reflexivity.
  - reflexivity.
  - vm_compute. discriminate.
  - reflexivity.
  - reflexivity.
  - vm_compute. discriminate.
  - destruct Hv1 as [Hv1 _]; [right; reflexivity|].
    destruct Hv2 as [Hv2 Hlen]; [reflexivity|].
    split; [exact Hv1|].
    eexists. split; [exact Hv2|].
    rewrite Hlen. reflexivity.
Defined.

(* ------------------------------------------------------------------------- *)
(** ** Empty slots                                                            *)
(* ------------------------------------------------------------------------- *)

(** C8.  When the 5-byte index record of [readTileV1], or the 4-byte
    inline record of [readTileV2], is zero at the computed record offset,
    the decoder returns no tile and does not throw.  [readTileV1] then
    makes a single [fs.open], of the [.bundlx] file: the [.bundle] file
    is not opened. *)
Theorem zero_record_is_absent
    (path_join : list string -> string) (disk1 disk2 : filesystem) (dir : string)
    (level column row : Z) (packetSize : option Z)
    (index_content content : list byte) (w : world) :
  let ps := or_default 128 packetSize in
  let info1 := getBundleInfo column row level None in
  let bundlx := path_join [dir; L info1; bundle_file info1 ".bundlx"] in
  let slot1 := ps * (column - cGroup info1) + (row - rGroup info1) in
  let run1 := readTileV1 path_join disk1 dir level column row packetSize w in
  let info2 := getBundleInfo column row level (Some ps) in
  let bundle2 := path_join [dir; L info2; bundle_file info2 ".bundle"] in
  let slot2 := ps * (row - rGroup info2) + (column - cGroup info2) in
  let run2 := readTileV2 path_join disk2 dir column row level packetSize w in
  let h := List.length (cursors w) in
  0 < ps ->
  disk1 bundlx = Some (RegularFile index_content) ->
  le_uint_at index_content (16 + 5 * slot1) 5 = 0 ->
  disk2 bundle2 = Some (RegularFile content) ->
  le_int32_at content (64 + 8 * slot2) = 0 ->
  (fst run1 = Returned None /\
   events_since w (snd run1) =
     [Open bundlx (Some h); Read h (16 + 5 * slot1) 5; Close h;
      Console (WarnTileMissingV1 level column row)] /\
   opened_paths (events_since w (snd run1)) = [bundlx]) /\
  (fst run2 = Returned None /\
   opened_paths (events_since w (snd run2)) = [bundle2] /\
   close_count h (events_since w (snd run2)) = 1%nat).
Proof.
  intros ps info1 bundlx slot1 run1 info2 bundle2 slot2 run2 h
         Hps Hindex Hrec1 Hdisk Hrec2.
  split.
  - subst run1.
    rewrite (readTileV1_zero_record path_join disk1 dir level column row packetSize
               w Hps index_content Hindex Hrec1).
    cbn [fst snd]. rewrite events_since_app. repeat split.
  - subst run2.
    destruct (Z.eq_dec (le_uint_at content 0 4) 3) as [Hversion|Hversion].
    + rewrite (readTileV2_zero_record path_join disk2 dir column row level packetSize
                 w Hps content Hdisk Hversion Hrec2).
      cbn [fst snd]. rewrite events_since_app.
      cbn [opened_paths close_count]. fold h. rewrite Nat.eqb_refl. repeat split.
    + rewrite (readTileV2_unsupported_version path_join disk2 dir column row level
                 packetSize w Hps content Hdisk Hversion).
      cbn [fst snd]. rewrite events_since_app.
      cbn [opened_paths close_count]. fold h. rewrite Nat.eqb_refl. repeat split.
Qed.

Lemma zero_record_is_absent_witness :
  let run1 := readTileV1 Sample.join (Sample.v1_cache 4 Sample.png) "/c" 1 1 2 None
                Sample.fresh in
  let run2 := readTileV2 Sample.join (Sample.v2_cache 4 Sample.png) "/c" 1 2 1 None
                Sample.fresh in
  (fst run1 = Returned None /\
   events_since Sample.fresh (snd run1) =
     [Open "/c/L01/R0000C0000.bundlx" (Some 0%nat); Read 0 666 5; Close 0;
      Console (WarnTileMissingV1 1 1 2)] /\
   opened_paths (events_since Sample.fresh (snd run1)) = ["/c/L01/R0000C0000.bundlx"]) /\
  (fst run2 = Returned None /\
   opened_paths (events_since Sample.fresh (snd run2)) = ["/c/L01/R0000C0000.bundle"] /\
   close_count 0 (events_since Sample.fresh (snd run2)) = 1%nat).
Proof.
  apply (zero_record_is_absent Sample.join
           (Sample.v1_cache 4 Sample.png) (Sample.v2_cache 4 Sample.png)
           "/c" 1 1 2 None (Sample.bundlx 129 8) (Sample.bundle_v2 3 129 4 Sample.png)
           Sample.fresh).
  - reflexivity.
  - reflexivity.
  - reflexivity.
  - reflexivity.
  - reflexivity.
Defined.

(* ------------------------------------------------------------------------- *)
(** ** Every decoder call leaves events                                       *)
(* ------------------------------------------------------------------------- *)

Section Emits.

Variable P : event -> Prop.

Lemma emits_ret {A} (a : A) : emits P (ret a).
Proof. intros w. exists []. cbn. now rewrite app_nil_r. Qed.

Lemma emits_throw {A} e : emits P (@throw A e).
Proof. intros w. exists []. cbn. now rewrite app_nil_r. Qed.

Lemma emits_emit e : P e -> emits P (emit e).
Proof. intros He w. exists [e]. split; [reflexivity|now constructor]. Qed.

Lemma emits_bind {A B} (m : M A) (k : A -> M B) :
  emits P m -> (forall a, emits P (k a)) -> emits P (bind m k).
Proof.
  intros Hm Hk w. unfold bind. destruct (Hm w) as (evs & Hevs & HP).
  destruct (m w) as [[a|e] w1]; cbn [snd] in *.
  - destruct (Hk a w1) as (evs' & Hevs' & HP'). exists (evs ++ evs').
    split; [now rewrite Hevs', Hevs, app_assoc|now apply Forall_app].
  - now exists evs.
Qed.

Lemma emits_try_catch {A} (body : M A) handler :
  emits P body -> (forall e, emits P (handler e)) -> emits P (try_catch body handler).
Proof.
  intros Hb Hh w. unfold try_catch. destruct (Hb w) as (evs & Hevs & HP).
  destruct (body w) as [[a|e] w1]; cbn [snd] in *.
  - now exists evs.
  - destruct (Hh e w1) as (evs' & Hevs' & HP'). exists (evs ++ evs').
    split; [now rewrite Hevs', Hevs, app_assoc|now apply Forall_app].
Qed.

Lemma emits_try_finally {A} (body : M A) cleanup :
  emits P body -> emits P cleanup -> emits P (try_finally body cleanup).
Proof.
  intros Hb Hc w. unfold try_finally. destruct (Hb w) as (evs & Hevs & HP).
  destruct (body w) as [r w1]; cbn [snd] in *.
  destruct (Hc w1) as (evs' & Hevs' & HP').
  exists (evs ++ evs').
  split; [|now apply Forall_app].
  destruct (cleanup w1) as [[u|e] w2]; cbn [snd] in *;
    now rewrite Hevs', Hevs, app_assoc.
Qed.

Lemma emits_fs_open disk p : (forall r, P (Open p r)) -> emits P (fs_open disk p).
Proof.
  intros Hp w. unfold fs_open.
  destruct (disk p); eexists; (split; [reflexivity|]); constructor; auto.
Qed.

Lemma emits_read h buf offset length position :
  P (Read (fd h) position length) ->
  emits P (FileHandle_read h buf offset length position).
Proof.
  intros Hp w.
  destruct (FileHandle_read_world h buf offset length position w) as (r & cs & ->).
  eexists. split; [reflexivity|]. constructor; auto.
Qed.

Lemma emits_if {A} (b : bool) (m1 m2 : M A) :
  emits P m1 -> emits P m2 -> emits P (if b then m1 else m2).
Proof. now destruct b. Qed.

End Emits.

Ltac emits_tac :=
  unfold console, FileHandle_close;
  repeat first
    [ apply emits_ret | apply emits_throw
    | apply emits_emit; exact I
    | apply emits_fs_open; intro; exact I
    | apply emits_read; exact I
    | apply emits_if | apply emits_try_finally | apply emits_try_catch
    | apply emits_bind | intro ].

Lemma emits_started {A B} (m : M A) (k : A -> M B) e w :
  (forall a, emits any_event (k a)) ->
  (exists cs, snd (m w) = mkWorld cs (trace w ++ [e])) ->
  exists evs, trace (snd (bind m k w)) = trace w ++ e :: evs.
Proof.
  intros Hk [cs Hm]. unfold bind.
  destruct (m w) as [[a|err] w1]; cbn [snd] in *; subst w1.
  - destruct (Hk a (mkWorld cs (trace w ++ [e]))) as (evs & Hevs & _).
    exists evs. rewrite Hevs. cbn [trace]. now rewrite <- app_assoc.
  - exists []. reflexivity.
Qed.

(** The first event of a [readTileV1] call is its [fs.open] of the index
    file. *)
Lemma readTileV1_leaves_events path_join disk dir z x y packetSize w :
  exists p r evs,
    trace (snd (readTileV1 path_join disk dir z x y packetSize w))
    = trace w ++ Open p r :: evs.
Proof.
  unfold readTileV1. cbv zeta.
  destruct (disk (path_join
                    [dir; L (getBundleInfo x y z None);
                     bundle_file (getBundleInfo x y z None) ".bundlx"])) eqn:Hd;
    do 2 eexists; apply emits_started.
  - emits_tac.
  - unfold fs_open. rewrite Hd. eexists. reflexivity.
  - emits_tac.
  - unfold fs_open. rewrite Hd. eexists. reflexivity.
Qed.

(** The first event of a [readTileV2] call is its console log. *)
Lemma readTileV2_leaves_events path_join disk dir col row level packetSize w :
  exists d evs,
    trace (snd (readTileV2 path_join disk dir col row level packetSize w))
    = trace w ++ Console d :: evs.
Proof.
  unfold readTileV2. cbv zeta. eexists. apply emits_started.
  - intros _. apply emits_bind.
    + emits_tac.
    + intros [fd0|]; [|apply emits_ret]. emits_tac.
  - eexists. reflexivity.
Qed.

(* ------------------------------------------------------------------------- *)
(** ** Handles of [readTileV2]                                                *)
(* ------------------------------------------------------------------------- *)

Lemma quiet_opened_handles evs : Forall quiet evs -> opened_handles evs = [].
Proof.
  induction 1 as [|e evs He _ IH]; [reflexivity|].
  destruct e; cbn in *; now try contradiction.
Qed.

Lemma quiet_close_count h evs : Forall quiet evs -> close_count h evs = 0%nat.
Proof.
  induction 1 as [|e evs He _ IH]; [reflexivity|].
  destruct e; cbn in *; now try contradiction.
Qed.

Lemma opened_handles_app t1 t2 :
  opened_handles (t1 ++ t2) = opened_handles t1 ++ opened_handles t2.
Proof.
  induction t1 as [|e t1 IH]; [reflexivity|].
  destruct e as [p [h|]| | |]; cbn; now rewrite ?IH.
Qed.

Lemma close_count_app h t1 t2 :
  close_count h (t1 ++ t2) = (close_count h t1 + close_count h t2)%nat.
Proof.
  induction t1 as [|e t1 IH]; [reflexivity|].
  destruct e; cbn; try destruct (Nat.eqb h h0); now rewrite ?IH.
Qed.

(** X18.  Whatever the file holds and whatever its reads do (return or
    throw), a [readTileV2] call that opened its bundle closes that handle
    exactly once, on the way out of the [try ... finally], and opens no
    other; a call whose open failed has no handle. *)
Lemma readTileV2_closes_its_handle path_join disk dir col row level packetSize w :
  let run := readTileV2 path_join disk dir col row level packetSize w in
  let h := List.length (cursors w) in
  let info := getBundleInfo col row level (Some (or_default 128 packetSize)) in
  let bundle := path_join [dir; L info; bundle_file info ".bundle"] in
  match disk bundle with
  | Some _ =>
      opened_handles (events_since w (snd run)) = [h] /\
      close_count h (events_since w (snd run)) = 1%nat
  | None => opened_handles (events_since w (snd run)) = []
  end.
Proof.
  intros run h info bundle. subst run.
  destruct (disk bundle) as [n|] eqn:Hd.
  - unfold readTileV2. cbv zeta. step_emit.
    erewrite bind_returned by (eapply guarded_open_some; exact Hd).
    cbv beta iota. cbn [cursors trace]. fold h.
    match goal with
    | |- context [try_finally ?body ?cleanup ?w0] =>
        assert (Hbody : emits quiet body) by emits_tac;
        destruct (Hbody w0) as (evs & Hevs & Hquiet);
        unfold try_finally; destruct (body w0) as [r w1]
    end.
    cbn [snd trace] in Hevs. unfold FileHandle_close, emit. cbn [fd snd].
    rewrite Hevs, <- !app_assoc, events_since_app.
    cbn [app opened_handles close_count].
    rewrite opened_handles_app, close_count_app.
    rewrite (quiet_opened_handles evs Hquiet), (quiet_close_count h evs Hquiet).
    cbn [opened_handles close_count app]. rewrite Nat.eqb_refl. split; reflexivity.
  - rewrite (readTileV2_missing path_join disk dir col row level packetSize w Hd).
    cbn [snd]. rewrite events_since_app. reflexivity.
Qed.

(* ------------------------------------------------------------------------- *)
(** ** Handles of [readTileV1]                                                *)
(* ------------------------------------------------------------------------- *)

Lemma eqb_S_self h : Nat.eqb (S h) h = false.
Proof. apply Nat.eqb_neq. lia. Qed.

(** X19.  A [readTileV1] call that returns (a tile or none) has closed
    every handle it opened, each exactly once.  Nothing is said of the
    calls that throw. *)
Lemma readTileV1_closes_when_it_returns
    path_join disk dir level column row packetSize w v :
  let run := readTileV1 path_join disk dir level column row packetSize w in
  0 < or_default 128 packetSize ->
  fst run = Returned v ->
  forall h, In h (opened_handles (events_since w (snd run))) ->
            close_count h (events_since w (snd run)) = 1%nat.
Proof.
  intros run Hps. subst run.
  set (info := getBundleInfo column row level None).
  destruct (disk (path_join [dir; L info; bundle_file info ".bundlx"]))
    as [[index_content|]|] eqn:Hindex.
  - set (offset := le_uint_at index_content
                     (16 + 5 * (or_default 128 packetSize * (column - cGroup info)
                                + (row - rGroup info))) 5).
    destruct (Z.eq_dec offset 0) as [Hz|Hnz].
    + rewrite (readTileV1_zero_record path_join disk dir level column row packetSize
                 w Hps index_content Hindex Hz).
      cbn [fst snd]. rewrite events_since_app. intros _ h [<-|[]].
      cbn [close_count app]. now rewrite Nat.eqb_refl.
    + destruct (disk (path_join [dir; L info; bundle_file info ".bundle"]))
        as [[data_content|]|] eqn:Hdata.
      * set (length := le_int32_at data_content offset).
        assert (Hcases : (length <= 0 \/ 1000000 < length) \/ 0 < length <= 1000000)
          by lia.
        destruct Hcases as [Hbad|Hok].
        -- rewrite (readTileV1_invalid_length path_join disk dir level column row
                      packetSize w Hps index_content Hindex data_content Hdata Hnz Hbad).
           cbn [fst snd]. rewrite events_since_app.
           intros _ h [<-|[<-|[]]]; cbn [close_count app];
             now rewrite Nat.eqb_refl, ?S_eqb_self, ?eqb_S_self.
        -- rewrite (readTileV1_tile path_join disk dir level column row
                      packetSize w Hps index_content Hindex data_content Hdata Hnz Hok).
           cbn [fst snd]. rewrite events_since_app.
           intros _ h [<-|[<-|[]]]; cbn [close_count app];
             now rewrite Nat.eqb_refl, ?S_eqb_self, ?eqb_S_self.
      * rewrite (readTileV1_data_directory path_join disk dir level column row
                   packetSize w Hps index_content Hindex Hnz Hdata).
        discriminate.
      * rewrite (readTileV1_data_missing path_join disk dir level column row
                   packetSize w Hps index_content Hindex Hnz Hdata).
        discriminate.
  - rewrite (readTileV1_index_directory path_join disk dir level column row
               packetSize w Hps Hindex).
    discriminate.
  - rewrite (readTileV1_index_missing path_join disk dir level column row
               packetSize w Hindex).
    discriminate.
Qed.

(* ------------------------------------------------------------------------- *)
(** ** The tile route                                                         *)
(* ------------------------------------------------------------------------- *)

(** C10.  When the level, row or column parameter parses to 0 or does not
    parse, the tile route answers 400 "Missing parameters" and leaves the
    world as it was: no configuration lookup, no file opened, no console
    output, hence no decoder call (a decoder call always adds events).
    Tiles of level 0, row 0 or column 0 cannot be fetched, whatever the
    cache holds. *)
Theorem tileRoute_rejects_zero
    (path_join : list string -> string) (root : string)
    (getConfXml : string -> outcome ConfXmlInfo) (disk : filesystem)
    (mapName : string) (level row col : jsnum) (w : world) :
  parse_fails_or_zero level \/ parse_fails_or_zero row \/ parse_fails_or_zero col ->
  tileRoute path_join root getConfXml disk mapName level row col w
  = (Returned (SendText 400 "Missing parameters"), w).
Proof.
  unfold parse_fails_or_zero, tileRoute.
  intros [[-> | ->] | [[-> | ->] | [-> | ->]]]; cbn [not_num Z.eqb];
    rewrite ?orb_true_r; reflexivity.
Qed.

(** The cache holds the tile of level 1, row 0, column 1, and the route
    still refuses the request. *)
Lemma tileRoute_rejects_zero_witness :
  let disk := Sample.one_file "/srv/image_tiles/m/_alllayers/L01/R0000C0000.bundle"
                (RegularFile (Sample.bundle_v2 3 1 4 Sample.png)) in
  let conf := fun _ : string => Returned (mkConf "png" v2 128) in
  fst (readTileV2 Sample.join disk "/srv/image_tiles/m/_alllayers" 1 0 1 (Some 128)
         Sample.fresh) = Returned (Some Sample.png) /\
  tileRoute Sample.join "/srv" conf disk "m" (Num 1) (Num 0) (Num 1) Sample.fresh
  = (Returned (SendText 400 "Missing parameters"), Sample.fresh).
Proof.
  split.
  - vm_compute. reflexivity.
  - apply tileRoute_rejects_zero. right. left. right. reflexivity.
Defined.

(** C5, as the code has it.  For a map whose format tag is [unknown]
    (neither v1, v2 nor loose) and a request that passes the parameter
    check, the route calls no decoder and answers 404 "Tile not found or
    empty."; a v2 map whose bundle file is missing gets the same
    answer. *)
Theorem tileRoute_unknown_format
    (path_join : list string -> string) (root : string)
    (getConfXml : string -> outcome ConfXmlInfo) (disk : filesystem)
    (mapName : string) (level row col : jsnum) (conf : ConfXmlInfo) (w : world) :
  not_str mapName = false -> not_num level = false ->
  not_num row = false -> not_num col = false ->
  getConfXml mapName = Returned conf ->
  (tileType conf = unknown ->
   tileRoute path_join root getConfXml disk mapName level row col w
   = (Returned (SendText 404 "Tile not found or empty."), w)) /\
  (tileType conf = v2 ->
   (let info := getBundleInfo (num_Z col) (num_Z row) (num_Z level)
                  (Some (packetSize conf)) in
    disk (path_join [getAllLayersDir path_join root mapName; L info;
                     bundle_file info ".bundle"]) = None) ->
   fst (tileRoute path_join root getConfXml disk mapName level row col w)
   = Returned (SendText 404 "Tile not found or empty.")).
Proof.
  intros Hm Hl Hr Hc Hconf. unfold tileRoute.
  rewrite Hm, Hl, Hr, Hc. cbn [orb].
  erewrite bind_returned by (rewrite Hconf; reflexivity).
  split; intros Htype; rewrite Htype.
  - reflexivity.
  - intros Hmissing. unfold try_catch.
    erewrite bind_returned
      by (apply readTileV2_missing; exact Hmissing).
    reflexivity.
Qed.

Lemma tileRoute_unknown_format_witness :
  let conf := mkConf "png" unknown 128 in
  (tileType conf = unknown ->
   tileRoute Sample.join "/srv" (fun _ => Returned conf) Sample.empty_disk "m"
     (Num 1) (Num 1) (Num 1) Sample.fresh
   = (Returned (SendText 404 "Tile not found or empty."), Sample.fresh)) /\
  (tileType conf = v2 ->
   (let info := getBundleInfo 1 1 1 (Some (packetSize conf)) in
    Sample.empty_disk
      (Sample.join [getAllLayersDir Sample.join "/srv" "m"; L info;
                    bundle_file info ".bundle"]) = None) ->
   fst (tileRoute Sample.join "/srv" (fun _ => Returned conf) Sample.empty_disk "m"
          (Num 1) (Num 1) (Num 1) Sample.fresh)
   = Returned (SendText 404 "Tile not found or empty.")).
Proof.
  apply (tileRoute_unknown_format Sample.join "/srv"
           (fun _ => Returned (mkConf "png" unknown 128)) Sample.empty_disk "m"
           (Num 1) (Num 1) (Num 1) (mkConf "png" unknown 128) Sample.fresh);
    reflexivity.
Defined.

(** C5, counterexample: on the same request the answer for an unknown
    format tag equals the answer for an absent tile, so the two are not
    distinct. *)
Lemma unknown_format_answers_like_absent_tile :
  let unknown_map := fun _ : string => Returned (mkConf "png" unknown 128) in
  let v2_map := fun _ : string => Returned (mkConf "png" v2 128) in
  let request conf :=
    fst (tileRoute Sample.join "/srv" conf Sample.empty_disk "m"
           (Num 1) (Num 1) (Num 1) Sample.fresh) in
  request v2_map = Returned (SendText 404 "Tile not found or empty.") /\
  request unknown_map = Returned (SendText 404 "Tile not found or empty.") /\
  ~ request unknown_map <> request v2_map.
Proof.
  cbv zeta. repeat split; try (vm_compute; reflexivity).
  intros H. apply H. vm_compute. reflexivity.
Qed.

(* ------------------------------------------------------------------------- *)
(** ** Where the code departs from its description                            *)
(* ------------------------------------------------------------------------- *)

(** C1.  [readTileV1] called with packet size 256 for column 0, row 200,
    on a cache laid out for that packet size.  The record the claim names
    is slot [256 * (0 - 0) + (200 - 0) = 200] of [R0000C0000.bundlx], at
    byte [16 + 5 * 200], and it holds the offset 8 of the tile.  The
    decoder does not consult it: it asks for [R0080C0000.bundlx] (the
    group of packet size 128) and throws when that file is missing; when
    a file of that name is there it reads slot 72, at byte
    [16 + 5 * 72], finds zero and returns no tile. *)
Theorem readTileV1_consults_another_record :
  let index := Sample.bundlx 200 8 in
  let cache :=
    Sample.two_files "/c/L00/R0000C0000.bundlx" (RegularFile index)
                     "/c/L00/R0000C0000.bundle"
                     (RegularFile (Sample.bundle_v1 4 Sample.png)) in
  let cache' : filesystem :=
    fun p => if String.eqb p "/c/L00/R0080C0000.bundlx"
             then Some (RegularFile index) else cache p in
  let rowGroup := 200 / 256 * 256 in
  let colGroup := 0 / 256 * 256 in
  let slotIndex := 256 * (0 - colGroup) + (200 - rowGroup) in
  (slotIndex = 200 /\ le_uint_at index (16 + 5 * slotIndex) 5 = 8) /\
  readTileV1 Sample.join cache "/c" 0 0 200 (Some 256) Sample.fresh
  = (Thrown (ENOENT "/c/L00/R0080C0000.bundlx"),
     mkWorld [] [Open "/c/L00/R0080C0000.bundlx" None]) /\
  readTileV1 Sample.join cache' "/c" 0 0 200 (Some 256) Sample.fresh
  = (Returned None,
     mkWorld [0]
       [Open "/c/L00/R0080C0000.bundlx" (Some 0%nat); Read 0 (16 + 5 * 72) 5;
        Close 0; Console (WarnTileMissingV1 0 0 200)]).
Proof. cbv zeta. repeat split; vm_compute; reflexivity. Qed.

(** C3.  [readTileV1] called with packet size 256 for row 200: the group
    is still computed with 128, so the decoder goes to [R0080C0000] and
    slot [256 * 0 + (200 - 128) = 72], where packet size 256 gives group 0,
    [R0000C0000] and slot 200.  [readTileV2] does use the packet size. *)
Theorem readTileV1_group_ignores_packetSize :
  let disk := fun _ : string => Some (RegularFile []) in
  events_since Sample.fresh
    (snd (readTileV1 Sample.join disk "/c" 0 0 200 (Some 256) Sample.fresh))
  = [Open "/c/L00/R0080C0000.bundlx" (Some 0%nat); Read 0 (16 + 5 * 72) 5; Close 0;
     Console (WarnTileMissingV1 0 0 200)] /\
  getBundleInfo 0 200 0 (Some 256) = mkBundleInfo "L00" "R0000" "C0000" 0 0 /\
  events_since Sample.fresh
    (snd (readTileV2 Sample.join disk "/c" 0 200 0 (Some 256) Sample.fresh))
  = [Console (LogReadTileV2 0 200 0 "/c/L00/R0000C0000.bundle");
     Open "/c/L00/R0000C0000.bundle" (Some 0%nat); Read 0 0 64;
     Console (WarnUnsupportedVersion 0 "/c/L00/R0000C0000.bundle"); Close 0].
Proof. cbv zeta. repeat split; vm_compute; reflexivity. Qed.

(** X20.  Whatever packet size it is given, the first thing
    [readTileV1] does is open the [.bundlx] file of the group computed
    with packet size 128. *)
Lemma readTileV1_group_is_default path_join disk dir z x y packetSize w :
  exists r evs,
    trace (snd (readTileV1 path_join disk dir z x y packetSize w))
    = trace w ++
      Open (path_join [dir; L (getBundleInfo x y z (Some 128));
                       bundle_file (getBundleInfo x y z (Some 128)) ".bundlx"]) r
      :: evs.
Proof.
  unfold readTileV1. cbv zeta.
  change (getBundleInfo x y z None) with (getBundleInfo x y z (Some 128)).
  destruct (disk (path_join
                    [dir; L (getBundleInfo x y z (Some 128));
                     bundle_file (getBundleInfo x y z (Some 128)) ".bundlx"])) eqn:Hd;
    eexists; apply emits_started.
  - emits_tac.
  - unfold fs_open. rewrite Hd. eexists. reflexivity.
  - emits_tac.
  - unfold fs_open. rewrite Hd. eexists. reflexivity.
Qed.

(** C4.  On a cache without the group's files [readTileV1] throws
    [ENOENT] from its [fs.open] of the index file, and the route turns
    that into 500; with the index file there and the data file missing
    it throws from the second [fs.open].  [readTileV2] on the empty cache
    returns no tile and the route answers 404. *)
Theorem readTileV1_missing_file_throws :
  let v1_map := fun _ : string => Returned (mkConf "png" v1 128) in
  let v2_map := fun _ : string => Returned (mkConf "png" v2 128) in
  let index_only :=
    Sample.one_file "/c/L01/R0000C0000.bundlx" (RegularFile (Sample.bundlx 129 8)) in
  readTileV1 Sample.join Sample.empty_disk "/c" 1 1 1 None Sample.fresh
  = (Thrown (ENOENT "/c/L01/R0000C0000.bundlx"),
     mkWorld [] [Open "/c/L01/R0000C0000.bundlx" None]) /\
  readTileV1 Sample.join index_only "/c" 1 1 1 None Sample.fresh
  = (Thrown (ENOENT "/c/L01/R0000C0000.bundle"),
     mkWorld [0]
       [Open "/c/L01/R0000C0000.bundlx" (Some 0%nat); Read 0 661 5; Close 0;
        Open "/c/L01/R0000C0000.bundle" None]) /\
  fst (tileRoute Sample.join "/srv" v1_map Sample.empty_disk "m"
         (Num 1) (Num 1) (Num 1) Sample.fresh)
  = Returned (SendText 500 "Internal server error.") /\
  fst (readTileV2 Sample.join Sample.empty_disk "/c" 1 1 1 None Sample.fresh)
  = Returned None /\
  fst (tileRoute Sample.join "/srv" v2_map Sample.empty_disk "m"
         (Num 1) (Num 1) (Num 1) Sample.fresh)
  = Returned (SendText 404 "Tile not found or empty.").
Proof. cbv zeta. repeat split; vm_compute; reflexivity. Qed.

(** C9.  When the read of the index file throws (here the path names a
    directory), [readTileV1] leaves the handle it opened unclosed; so
    does a throwing read of the data file.  [readTileV2] closes its
    handle in the same situation. *)
Theorem readTileV1_leaks_handle_on_throw :
  let index_dir := Sample.one_file "/c/L01/R0000C0000.bundlx" Directory in
  let data_dir :=
    Sample.two_files "/c/L01/R0000C0000.bundlx" (RegularFile (Sample.bundlx 129 8))
                     "/c/L01/R0000C0000.bundle" Directory in
  let bundle_dir := Sample.one_file "/c/L01/R0000C0000.bundle" Directory in
  let run1 := readTileV1 Sample.join index_dir "/c" 1 1 1 None Sample.fresh in
  let run1' := readTileV1 Sample.join data_dir "/c" 1 1 1 None Sample.fresh in
  let run2 := readTileV2 Sample.join bundle_dir "/c" 1 1 1 None Sample.fresh in
  (run1 = (Thrown EISDIR,
           mkWorld [0] [Open "/c/L01/R0000C0000.bundlx" (Some 0%nat); Read 0 661 5]) /\
   opened_handles (trace (snd run1)) = [0%nat] /\
   close_count 0 (trace (snd run1)) = 0%nat) /\
  (fst run1' = Thrown EISDIR /\
   opened_handles (trace (snd run1')) = [0%nat; 1%nat] /\
   close_count 0 (trace (snd run1')) = 1%nat /\
   close_count 1 (trace (snd run1')) = 0%nat) /\
  (fst run2 = Thrown EISDIR /\
   opened_handles (trace (snd run2)) = [0%nat] /\
   close_count 0 (trace (snd run2)) = 1%nat).
Proof. cbv zeta. repeat split; vm_compute; reflexivity. Qed.

(* ------------------------------------------------------------------------- *)
(** ** Round trips through a bundle                                           *)
(* ------------------------------------------------------------------------- *)

Lemma le_uint_at_encoded content position width v :
  0 <= v < 2 ^ (8 * Z.of_nat width) ->
  file_slice content position (Z.of_nat width) = le_split width v ->
  le_uint_at content position (Z.of_nat width) = v.
Proof.
  intros Hv Hs. unfold le_uint_at. rewrite Hs, le_combine_split.
  rewrite Z.mul_comm. apply Z.mod_small. exact Hv.
Qed.

Lemma le_int32_at_encoded content position v :
  0 <= v < 2 ^ 31 ->
  file_slice content position 4 = le_split 4 v ->
  le_int32_at content position = v.
Proof.
  intros Hv Hs. unfold le_int32_at.
  replace (le_uint_at content position 4) with v
    by (symmetry; apply (le_uint_at_encoded content position 4 v);
        [cbn; lia|exact Hs]).
  unfold to_int32. destruct (Z.ltb_spec v (2 ^ 31)); lia.
Qed.

Lemma read_at_exact content position data :
  file_slice content position (Z.of_nat (List.length data)) = data ->
  read_at content position (Z.of_nat (List.length data)) = data.
Proof.
  intros Hs. rewrite read_at_pad, Hs, Nat2Z.id, Nat.sub_diag. cbn.
  apply app_nil_r.
Qed.

(** X1.  Round trip through a V1 cache.  If the 5 bytes of the [.bundlx]
    file at the tile's record hold [offset] (little-endian, not zero),
    and the [.bundle] file holds at [offset] the length of [data] as 4
    little-endian bytes followed by [data] itself, with [data] between 1
    and 1,000,000 bytes, then [readTileV1] returns exactly [data]. *)
Theorem readTileV1_round_trip
    (path_join : list string -> string) (disk : filesystem) (dir : string)
    (level column row : Z) (packetSize : option Z)
    (index_content data_content data : list byte) (offset : Z) (w : world) :
  let ps := or_default 128 packetSize in
  let info := getBundleInfo column row level None in
  let bundlx := path_join [dir; L info; bundle_file info ".bundlx"] in
  let bundle := path_join [dir; L info; bundle_file info ".bundle"] in
  let slotIndex := ps * (column - cGroup info) + (row - rGroup info) in
  let size := Z.of_nat (List.length data) in
  0 < ps ->
  disk bundlx = Some (RegularFile index_content) ->
  disk bundle = Some (RegularFile data_content) ->
  0 < offset < 2 ^ 40 ->
  0 < size <= 1000000 ->
  file_slice index_content (16 + 5 * slotIndex) 5 = le_split 5 offset ->
  file_slice data_content offset 4 = le_split 4 size ->
  file_slice data_content (offset + 4) size = data ->
  fst (readTileV1 path_join disk dir level column row packetSize w)
  = Returned (Some data).
Proof.
  intros ps info bundlx bundle slotIndex size Hps Hindex Hdata Hoff Hsize
         Hrecord Hlength Hbytes.
  assert (Hoffset : le_uint_at index_content (16 + 5 * slotIndex) 5 = offset)
    by (apply (le_uint_at_encoded index_content _ 5 offset); [cbn; lia|exact Hrecord]).
  assert (Hlen : le_int32_at data_content offset = size)
    by (apply le_int32_at_encoded; [lia|exact Hlength]).
  rewrite (readTileV1_tile path_join disk dir level column row packetSize w Hps
             index_content Hindex data_content Hdata).
  - cbn [fst]. fold ps info slotIndex. rewrite Hoffset, Hlen.
    unfold size. rewrite read_at_exact; [reflexivity|exact Hbytes].
  - fold ps info slotIndex. rewrite Hoffset. lia.
  - fold ps info slotIndex. rewrite Hoffset, Hlen. lia.
Qed.

Lemma readTileV1_round_trip_witness :
  fst (readTileV1 Sample.join (Sample.v1_cache 4 Sample.png) "/c" 1 1 1 None
         Sample.fresh)
  = Returned (Some Sample.png).
Proof.
  apply (readTileV1_round_trip Sample.join (Sample.v1_cache 4 Sample.png) "/c"
           1 1 1 None (Sample.bundlx 129 8) (Sample.bundle_v1 4 Sample.png)
           Sample.png 8 Sample.fresh).
  - reflexivity.
  - reflexivity.
  - reflexivity.
  - split; reflexivity.
  - split; [reflexivity|]. vm_compute. discriminate.
  - reflexivity.
  - reflexivity.
  - reflexivity.
Defined.

(** X2.  Round trip through a V2 bundle.  If the [.bundle] file has
    version 3, its 4-byte record for the tile holds [dataOffset] (at
    least 4), the 4 bytes before [dataOffset] hold the length of [data]
    and [data] itself starts at [dataOffset], then [readTileV2] returns
    exactly [data], whatever its (positive) length. *)
Theorem readTileV2_round_trip
    (path_join : list string -> string) (disk : filesystem) (dir : string)
    (column row level : Z) (packetSize : option Z)
    (content data : list byte) (dataOffset : Z) (w : world) :
  let ps := or_default 128 packetSize in
  let info := getBundleInfo column row level (Some ps) in
  let bundle := path_join [dir; L info; bundle_file info ".bundle"] in
  let slotIndex := ps * (row - rGroup info) + (column - cGroup info) in
  let size := Z.of_nat (List.length data) in
  0 < ps ->
  disk bundle = Some (RegularFile content) ->
  4 <= dataOffset < 2 ^ 31 ->
  0 < size < 2 ^ 31 ->
  file_slice content 0 4 = le_split 4 3 ->
  file_slice content (64 + 8 * slotIndex) 4 = le_split 4 dataOffset ->
  file_slice content (dataOffset - 4) 4 = le_split 4 size ->
  file_slice content dataOffset size = data ->
  fst (readTileV2 path_join disk dir column row level packetSize w)
  = Returned (Some data).
Proof.
  intros ps info bundle slotIndex size Hps Hdisk Hoff Hsize
         Hversion Hrecord Hlength Hbytes.
  assert (Hv : le_uint_at content 0 4 = 3)
    by (apply (le_uint_at_encoded content 0 4 3); [cbn; lia|exact Hversion]).
  assert (Hd : le_int32_at content (64 + 8 * slotIndex) = dataOffset)
    by (apply le_int32_at_encoded; [lia|exact Hrecord]).
  assert (Hlen : le_int32_at content (dataOffset - 4) = size)
    by (apply le_int32_at_encoded; [lia|exact Hlength]).
  rewrite (readTileV2_tile path_join disk dir column row level packetSize w Hps
             content Hdisk Hv).
  - cbn [fst]. fold ps info slotIndex. rewrite Hd, Hlen.
    unfold size. rewrite read_at_exact; [reflexivity|exact Hbytes].
  - fold ps info slotIndex. rewrite Hd. lia.
  - fold ps info slotIndex. rewrite Hd, Hlen. lia.
Qed.

Lemma readTileV2_round_trip_witness :
  fst (readTileV2 Sample.join (Sample.v2_cache 4 Sample.png) "/c" 1 1 1 (Some 128)
         Sample.fresh)
  = Returned (Some Sample.png).
Proof.
  apply (readTileV2_round_trip Sample.join (Sample.v2_cache 4 Sample.png) "/c"
           1 1 1 (Some 128) (Sample.bundle_v2 3 129 4 Sample.png)
           Sample.png 1108 Sample.fresh).
  - reflexivity.
  - reflexivity.
  - split; [vm_compute; discriminate|reflexivity].
  - split; reflexivity.
  - reflexivity.
  - reflexivity.
  - reflexivity.
  - reflexivity.
Defined.

(* ------------------------------------------------------------------------- *)
(** ** Edges of the decoders                                                  *)
(* ------------------------------------------------------------------------- *)

(** X3.  A [.bundle] whose header version is not 3 makes [readTileV2]
    return no tile: it reads the 64 header bytes and nothing else (no
    record lookup), warns, and closes the handle. *)
Theorem readTileV2_rejects_other_versions
    (path_join : list string -> string) (disk : filesystem) (dir : string)
    (column row level : Z) (packetSize : option Z)
    (content : list byte) (w : world) :
  let ps := or_default 128 packetSize in
  let info := getBundleInfo column row level (Some ps) in
  let bundle := path_join [dir; L info; bundle_file info ".bundle"] in
  let h := List.length (cursors w) in
  let run := readTileV2 path_join disk dir column row level packetSize w in
  0 < ps ->
  disk bundle = Some (RegularFile content) ->
  le_uint_at content 0 4 <> 3 ->
  fst run = Returned None /\
  reads_of h (events_since w (snd run)) = [(0, 64)] /\
  In (Console (WarnUnsupportedVersion (le_uint_at content 0 4) bundle))
     (events_since w (snd run)) /\
  close_count h (events_since w (snd run)) = 1%nat.
Proof.
  intros ps info bundle h run Hps Hdisk Hversion. subst run.
  rewrite (readTileV2_unsupported_version path_join disk dir column row level
             packetSize w Hps content Hdisk Hversion).
  cbn [fst snd]. rewrite events_since_app.
  cbn [reads_of close_count]. fold h. rewrite Nat.eqb_refl.
  repeat split. cbn. auto 10.
Qed.

Lemma readTileV2_rejects_other_versions_witness :
  let disk := Sample.one_file "/c/L01/R0000C0000.bundle"
                (RegularFile (Sample.bundle_v2 2 129 4 Sample.png)) in
  let run := readTileV2 Sample.join disk "/c" 1 1 1 (Some 128) Sample.fresh in
  fst run = Returned None /\
  reads_of 0 (events_since Sample.fresh (snd run)) = [(0, 64)] /\
  In (Console (WarnUnsupportedVersion
                 (le_uint_at (Sample.bundle_v2 2 129 4 Sample.png) 0 4)
                 "/c/L01/R0000C0000.bundle"))
     (events_since Sample.fresh (snd run)) /\
  close_count 0 (events_since Sample.fresh (snd run)) = 1%nat.
Proof.
  apply (readTileV2_rejects_other_versions Sample.join
           (Sample.one_file "/c/L01/R0000C0000.bundle"
              (RegularFile (Sample.bundle_v2 2 129 4 Sample.png)))
           "/c" 1 1 1 (Some 128) (Sample.bundle_v2 2 129 4 Sample.png) Sample.fresh).
  - reflexivity.
  - reflexivity.
  - vm_compute. discriminate.
Defined.

Lemma le_uint_at_past_end content position width :
  Z.of_nat (List.length content) <= position ->
  le_uint_at content position width = 0.
Proof.
  intros Hend. unfold le_uint_at, file_slice.
  destruct (Z.leb_spec (Z.of_nat (List.length content)) position); [reflexivity|lia].
Qed.

(** X4.  A [.bundlx] file that ends at or before the tile's record (a
    truncated or empty index) reads as an empty slot: [readTileV1]
    returns no tile, does not throw and does not open the [.bundle]
    file. *)
Theorem readTileV1_short_index_is_absent
    (path_join : list string -> string) (disk : filesystem) (dir : string)
    (level column row : Z) (packetSize : option Z)
    (index_content : list byte) (w : world) :
  let ps := or_default 128 packetSize in
  let info := getBundleInfo column row level None in
  let bundlx := path_join [dir; L info; bundle_file info ".bundlx"] in
  let slotIndex := ps * (column - cGroup info) + (row - rGroup info) in
  let run := readTileV1 path_join disk dir level column row packetSize w in
  0 < ps ->
  disk bundlx = Some (RegularFile index_content) ->
  Z.of_nat (List.length index_content) <= 16 + 5 * slotIndex ->
  fst run = Returned None /\
  opened_paths (events_since w (snd run)) = [bundlx].
Proof.
  intros ps info bundlx slotIndex run Hps Hindex Hshort. subst run.
  rewrite (readTileV1_zero_record path_join disk dir level column row packetSize
             w Hps index_content Hindex).
  - cbn [fst snd]. rewrite events_since_app. split; reflexivity.
  - apply le_uint_at_past_end. exact Hshort.
Qed.

Lemma readTileV1_short_index_is_absent_witness :
  let disk := Sample.one_file "/c/L01/R0000C0000.bundlx" (RegularFile []) in
  let run := readTileV1 Sample.join disk "/c" 1 1 1 None Sample.fresh in
  fst run = Returned None /\
  opened_paths (events_since Sample.fresh (snd run)) = ["/c/L01/R0000C0000.bundlx"].
Proof.
  apply (readTileV1_short_index_is_absent Sample.join
           (Sample.one_file "/c/L01/R0000C0000.bundlx" (RegularFile []))
           "/c" 1 1 1 None [] Sample.fresh).
  - reflexivity.
  - reflexivity.
  - vm_compute. discriminate.
Defined.

(** X5.  A version-3 [.bundle] file that ends at or before the tile's
    record reads as an empty slot: [readTileV2] returns no tile and does
    not throw. *)
Theorem readTileV2_short_table_is_absent
    (path_join : list string -> string) (disk : filesystem) (dir : string)
    (column row level : Z) (packetSize : option Z)
    (content : list byte) (w : world) :
  let ps := or_default 128 packetSize in
  let info := getBundleInfo column row level (Some ps) in
  let bundle := path_join [dir; L info; bundle_file info ".bundle"] in
  let slotIndex := ps * (row - rGroup info) + (column - cGroup info) in
  let run := readTileV2 path_join disk dir column row level packetSize w in
  0 < ps ->
  disk bundle = Some (RegularFile content) ->
  le_uint_at content 0 4 = 3 ->
  Z.of_nat (List.length content) <= 64 + 8 * slotIndex ->
  fst run = Returned None /\
  In (Console (WarnTileNotFoundV2 column row)) (events_since w (snd run)).
Proof.
  intros ps info bundle slotIndex run Hps Hdisk Hversion Hshort. subst run.
  rewrite (readTileV2_zero_record path_join disk dir column row level packetSize
             w Hps content Hdisk Hversion).
  - cbn [fst snd]. rewrite events_since_app. split; [reflexivity|]. cbn. auto 10.
  - unfold le_int32_at. fold ps info slotIndex.
    rewrite le_uint_at_past_end by exact Hshort. reflexivity.
Qed.

Lemma readTileV2_short_table_is_absent_witness :
  let content := le_split 4 3 ++ Sample.zeros 60 in
  let disk := Sample.one_file "/c/L01/R0000C0000.bundle" (RegularFile content) in
  let run := readTileV2 Sample.join disk "/c" 1 1 1 (Some 128) Sample.fresh in
  fst run = Returned None /\
  In (Console (WarnTileNotFoundV2 1 1)) (events_since Sample.fresh (snd run)).
Proof.
  apply (readTileV2_short_table_is_absent Sample.join
           (Sample.one_file "/c/L01/R0000C0000.bundle"
              (RegularFile (le_split 4 3 ++ Sample.zeros 60)))
           "/c" 1 1 1 (Some 128) (le_split 4 3 ++ Sample.zeros 60) Sample.fresh).
  - reflexivity.
  - reflexivity.
  - reflexivity.
  - vm_compute. discriminate.
Defined.

Lemma returned_some_inj {A} (a b : A) :
  Returned (Some a) = Returned (Some b) -> a = b.
Proof. now intros [= ->]. Qed.

(** X6.  Whatever the cache holds, a tile that [readTileV1] returns has
    between 1 and 1,000,000 bytes: never an empty buffer, never more than
    the bound. *)
Theorem readTileV1_tile_size_bounded
    (path_join : list string -> string) (disk : filesystem) (dir : string)
    (level column row : Z) (packetSize : option Z) (w : world) (tile : buffer) :
  0 < or_default 128 packetSize ->
  fst (readTileV1 path_join disk dir level column row packetSize w)
  = Returned (Some tile) ->
  0 < Z.of_nat (List.length tile) <= 1000000.
Proof.
  intros Hps.
  set (info := getBundleInfo column row level None).
  destruct (disk (path_join [dir; L info; bundle_file info ".bundlx"]))
    as [[index_content|]|] eqn:Hindex.
  - set (offset := le_uint_at index_content
                     (16 + 5 * (or_default 128 packetSize * (column - cGroup info)
                                + (row - rGroup info))) 5).
    destruct (Z.eq_dec offset 0) as [Hz|Hnz].
    + rewrite (readTileV1_zero_record path_join disk dir level column row packetSize
                 w Hps index_content Hindex Hz).
      discriminate.
    + destruct (disk (path_join [dir; L info; bundle_file info ".bundle"]))
        as [[data_content|]|] eqn:Hdata.
      * set (length := le_int32_at data_content offset).
        assert (Hcases : (length <= 0 \/ 1000000 < length) \/ 0 < length <= 1000000)
          by lia.
        destruct Hcases as [Hbad|Hok].
        -- rewrite (readTileV1_invalid_length path_join disk dir level column row
                      packetSize w Hps index_content Hindex data_content Hdata Hnz Hbad).
           discriminate.
        -- rewrite (readTileV1_tile path_join disk dir level column row
                      packetSize w Hps index_content Hindex data_content Hdata Hnz Hok).
           cbn [fst]. intros Heq. apply returned_some_inj in Heq.
           rewrite <- Heq, read_at_length.
           change (0 < Z.of_nat (Z.to_nat length) <= 1000000). lia.
      * rewrite (readTileV1_data_directory path_join disk dir level column row
                   packetSize w Hps index_content Hindex Hnz Hdata).
        discriminate.
      * rewrite (readTileV1_data_missing path_join disk dir level column row
                   packetSize w Hps index_content Hindex Hnz Hdata).
        discriminate.
  - rewrite (readTileV1_index_directory path_join disk dir level column row
               packetSize w Hps Hindex).
    discriminate.
  - rewrite (readTileV1_index_missing path_join disk dir level column row
               packetSize w Hindex).
    discriminate.
Qed.

Lemma readTileV1_tile_size_bounded_witness :
  0 < Z.of_nat (List.length Sample.png) <= 1000000.
Proof.
  apply (readTileV1_tile_size_bounded Sample.join (Sample.v1_cache 4 Sample.png)
           "/c" 1 1 1 None Sample.fresh Sample.png).
  - reflexivity.
  - vm_compute. reflexivity.
Defined.

Lemma readTileV1_closes_when_it_returns_witness :
  let run := readTileV1 Sample.join (Sample.v1_cache 4 Sample.png) "/c" 1 1 1 None
               Sample.fresh in
  opened_handles (events_since Sample.fresh (snd run)) = [0%nat; 1%nat] /\
  close_count 0 (events_since Sample.fresh (snd run)) = 1%nat /\
  close_count 1 (events_since Sample.fresh (snd run)) = 1%nat.
Proof.
  pose proof (readTileV1_closes_when_it_returns Sample.join
                (Sample.v1_cache 4 Sample.png) "/c" 1 1 1 None Sample.fresh
                (Some Sample.png)) as H.
  cbv zeta in H.
  assert (Hps : 0 < or_default 128 None) by reflexivity.
  assert (Hrun : fst (readTileV1 Sample.join (Sample.v1_cache 4 Sample.png) "/c"
                        1 1 1 None Sample.fresh) = Returned (Some Sample.png))
    by (vm_compute; reflexivity).
  specialize (H Hps Hrun).
  assert (Hopened : opened_handles
                      (events_since Sample.fresh
                         (snd (readTileV1 Sample.join (Sample.v1_cache 4 Sample.png)
                                 "/c" 1 1 1 None Sample.fresh)))
                    = [0%nat; 1%nat]) by (vm_compute; reflexivity).
  cbv zeta. split; [exact Hopened|].
  split; apply H; rewrite Hopened; cbn; auto.
Defined.

(* ------------------------------------------------------------------------- *)
(** ** Which tiles share a record                                             *)
(* ------------------------------------------------------------------------- *)

Module NameFacts.
Import JSString.

Lemma value_from_no_upper_C radix s : forall acc v,
  value_from radix acc s = Some v ->
  forall s1 s2, s <> (s1 ++ String "C" s2)%string.
Proof.
  induction s as [|c s IH]; intros acc v Hv s1 s2 Heq.
  - destruct s1; discriminate.
  - cbn [value_from] in Hv. destruct s1 as [|c1 s1]; cbn in Heq.
    + injection Heq as -> _. discriminate.
    + injection Heq as _ Heq.
      destruct (digit_value c) as [d|]; [|discriminate].
      destruct (d <? radix); [|discriminate].
      exact (IH _ _ Hv _ _ Heq).
Qed.

Lemma zero_padded_no_upper_C radix width n s :
  zero_padded radix width n s -> forall s1 s2, s <> (s1 ++ String "C" s2)%string.
Proof.
  intros [Hv _]. unfold value in Hv. destruct s as [|c s].
  - discriminate.
  - eapply value_from_no_upper_C. exact Hv.
Qed.

Lemma zero_padded_same_string radix width n n' s :
  zero_padded radix width n s -> zero_padded radix width n' s -> n = n'.
Proof. intros [Hv _] [Hv' _]. congruence. Qed.

Lemma append_inv_tail s1 : forall s2 t, (s1 ++ t = s2 ++ t)%string -> s1 = s2.
Proof.
  intros s2 t H.
  apply (f_equal list_ascii_of_string) in H.
  assert (Happ : forall a b, list_ascii_of_string (a ++ b)
                             = list_ascii_of_string a ++ list_ascii_of_string b).
  { induction a as [|c a IHa]; intros b; cbn; [reflexivity|now rewrite IHa]. }
  rewrite !Happ in H. apply app_inv_tail in H.
  rewrite <- (string_of_list_ascii_of_string s1), <- (string_of_list_ascii_of_string s2).
  now rewrite H.
Qed.

Lemma split_at_upper_C s1 : forall s2 t1 t2,
  (forall a b, s1 <> (a ++ String "C" b)%string) ->
  (forall a b, s2 <> (a ++ String "C" b)%string) ->
  (s1 ++ String "C" t1 = s2 ++ String "C" t2)%string ->
  s1 = s2 /\ t1 = t2.
Proof.
  induction s1 as [|c s1 IH]; intros s2 t1 t2 H1 H2 Heq.
  - destruct s2 as [|c2 s2]; cbn in Heq.
    + injection Heq as ->. auto.
    + injection Heq as <- _. exfalso. apply (H2 EmptyString s2). reflexivity.
  - destruct s2 as [|c2 s2]; cbn in Heq.
    + injection Heq as -> _. exfalso. apply (H1 EmptyString s1). reflexivity.
    + injection Heq as -> Heq.
      destruct (IH s2 t1 t2) as [-> ->]; auto.
      * intros a b E. apply (H1 (String c2 a) b). cbn. now rewrite E.
      * intros a b E. apply (H2 (String c2 a) b). cbn. now rewrite E.
Qed.

End NameFacts.

(** The level directory and the file name of a bundle determine the level
    and both group coordinates. *)
Lemma bundle_name_determines_group col row level col' row' level' ps ext :
  0 < ps -> 0 <= level -> 0 <= row -> 0 <= col ->
  0 <= level' -> 0 <= row' -> 0 <= col' ->
  let info := getBundleInfo col row level (Some ps) in
  let info' := getBundleInfo col' row' level' (Some ps) in
  L info = L info' ->
  bundle_file info ext = bundle_file info' ext ->
  level = level' /\ rGroup info = rGroup info' /\ cGroup info = cGroup info'.
Proof.
  intros Hps Hl Hr Hc Hl' Hr' Hc' info info' HL Hfile.
  assert (Hg : forall a, 0 <= a -> 0 <= a / ps * ps)
    by (intros a Ha; apply Z.mul_nonneg_nonneg; [apply Z.div_pos|]; lia).
  pose proof (JSStringFacts.padStart_toString 10 2 level ltac:(lia) Hl ltac:(lia)) as PL.
  pose proof (JSStringFacts.padStart_toString 10 2 level' ltac:(lia) Hl' ltac:(lia)) as PL'.
  pose proof (JSStringFacts.padStart_toString 16 4 _ ltac:(lia) (Hg row Hr) ltac:(lia)) as PR.
  pose proof (JSStringFacts.padStart_toString 16 4 _ ltac:(lia) (Hg row' Hr') ltac:(lia)) as PR'.
  pose proof (JSStringFacts.padStart_toString 16 4 _ ltac:(lia) (Hg col Hc) ltac:(lia)) as PC.
  pose proof (JSStringFacts.padStart_toString 16 4 _ ltac:(lia) (Hg col' Hc') ltac:(lia)) as PC'.
  unfold info, info', getBundleInfo, bundle_file in *.
  cbn [L R C rGroup cGroup or_default] in *.
  injection HL as HL. rewrite HL in PL.
  split; [exact (NameFacts.zero_padded_same_string _ _ _ _ _ PL PL')|].
  cbn [append] in Hfile. injection Hfile as Hfile.
  destruct (NameFacts.split_at_upper_C _ _ _ _
              (NameFacts.zero_padded_no_upper_C _ _ _ _ PR)
              (NameFacts.zero_padded_no_upper_C _ _ _ _ PR')
              Hfile) as [HR HC].
  apply NameFacts.append_inv_tail in HC.
  rewrite HR in PR. rewrite HC in PC.
  split.
  - exact (NameFacts.zero_padded_same_string _ _ _ _ _ PR PR').
  - exact (NameFacts.zero_padded_same_string _ _ _ _ _ PC PC').
Qed.

Lemma slot_decomposition ps a b a' b' :
  0 <= b < ps -> 0 <= b' < ps -> ps * a + b = ps * a' + b' -> a = a' /\ b = b'.
Proof.
  intros Hb Hb' H.
  assert (Ha : a = a').
  { destruct (Z.lt_trichotomy a a') as [Hlt|[Heq|Hgt]]; [|exact Heq|].
    - assert (ps * 1 <= ps * (a' - a)) by (apply Z.mul_le_mono_nonneg_l; lia). lia.
    - assert (ps * 1 <= ps * (a - a')) by (apply Z.mul_le_mono_nonneg_l; lia). lia. }
  subst a'. split; [reflexivity|lia].
Qed.

(** X7.  [readTileV2] never maps two tiles to one record: for a positive
    packet size and non-negative addresses, two tiles whose bundles have
    the same level directory and file name and whose record offsets
    [64 + 8 * slotIndex] coincide are the same tile; and the slot index
    stays inside the [packetSize * packetSize] table. *)
Theorem readTileV2_records_do_not_alias
    (packetSize level row column level' row' column' : Z) :
  let info := getBundleInfo column row level (Some packetSize) in
  let info' := getBundleInfo column' row' level' (Some packetSize) in
  let slotIndex := packetSize * (row - rGroup info) + (column - cGroup info) in
  let slotIndex' := packetSize * (row' - rGroup info') + (column' - cGroup info') in
  0 < packetSize ->
  0 <= level -> 0 <= row -> 0 <= column ->
  0 <= level' -> 0 <= row' -> 0 <= column' ->
  0 <= slotIndex < packetSize * packetSize /\
  (L info = L info' ->
   bundle_file info ".bundle" = bundle_file info' ".bundle" ->
   64 + 8 * slotIndex = 64 + 8 * slotIndex' ->
   level = level' /\ row = row' /\ column = column').
Proof.
  intros info info' slotIndex slotIndex' Hps Hl Hr Hc Hl' Hr' Hc'.
  pose proof (group_offset_range row packetSize Hps) as Br.
  pose proof (group_offset_range column packetSize Hps) as Bc.
  pose proof (group_offset_range row' packetSize Hps) as Br'.
  pose proof (group_offset_range column' packetSize Hps) as Bc'.
  split.
  - unfold slotIndex, info, getBundleInfo. cbn [rGroup cGroup or_default]. nia.
  - intros HL Hfile Hslot.
    destruct (bundle_name_determines_group column row level column' row' level'
                packetSize ".bundle" Hps Hl Hr Hc Hl' Hr' Hc' HL Hfile)
      as (Hlevel & HrG & HcG).
    unfold slotIndex, slotIndex', info, info', getBundleInfo in *.
    cbn [rGroup cGroup or_default] in *.
    destruct (slot_decomposition packetSize
                (row - row / packetSize * packetSize)
                (column - column / packetSize * packetSize)
                (row' - row' / packetSize * packetSize)
                (column' - column' / packetSize * packetSize) Bc Bc' ltac:(lia)).
    lia.
Qed.

Lemma readTileV2_records_do_not_alias_witness :
  let info := getBundleInfo 5 200 12 (Some 128) in
  let slotIndex := 128 * (200 - rGroup info) + (5 - cGroup info) in
  0 <= slotIndex < 128 * 128 /\
  (L info = L info ->
   bundle_file info ".bundle" = bundle_file info ".bundle" ->
   64 + 8 * slotIndex = 64 + 8 * slotIndex ->
   12 = 12 /\ 200 = 200 /\ 5 = 5).
Proof.
  apply (readTileV2_records_do_not_alias 128 12 200 5 12 200 5); lia.
Defined.

(** X8.  [readTileV1] with a packet size of at least 128 (the default
    included) never maps two tiles to one index record: two non-negative
    addresses with the same level directory, the same [.bundlx] name and
    the same record offset [16 + 5 * slotIndex] are the same tile. *)
Theorem readTileV1_records_do_not_alias
    (packetSize : option Z) (level row column level' row' column' : Z) :
  let ps := or_default 128 packetSize in
  let info := getBundleInfo column row level None in
  let info' := getBundleInfo column' row' level' None in
  let slotIndex := ps * (column - cGroup info) + (row - rGroup info) in
  let slotIndex' := ps * (column' - cGroup info') + (row' - rGroup info') in
  128 <= ps ->
  0 <= level -> 0 <= row -> 0 <= column ->
  0 <= level' -> 0 <= row' -> 0 <= column' ->
  L info = L info' ->
  bundle_file info ".bundlx" = bundle_file info' ".bundlx" ->
  16 + 5 * slotIndex = 16 + 5 * slotIndex' ->
  level = level' /\ row = row' /\ column = column'.
Proof.
  intros ps info info' slotIndex slotIndex' Hps Hl Hr Hc Hl' Hr' Hc' HL Hfile Hslot.
  pose proof (group_offset_range row 128 eq_refl) as Br.
  pose proof (group_offset_range column 128 eq_refl) as Bc.
  pose proof (group_offset_range row' 128 eq_refl) as Br'.
  pose proof (group_offset_range column' 128 eq_refl) as Bc'.
  destruct (bundle_name_determines_group column row level column' row' level'
              128 ".bundlx" eq_refl Hl Hr Hc Hl' Hr' Hc' HL Hfile)
    as (Hlevel & HrG & HcG).
  unfold slotIndex, slotIndex', info, info', getBundleInfo in *.
  cbn [rGroup cGroup or_default] in *.
  destruct (slot_decomposition ps
              (column - column / 128 * 128) (row - row / 128 * 128)
              (column' - column' / 128 * 128) (row' - row' / 128 * 128)
              ltac:(lia) ltac:(lia) ltac:(lia)).
  lia.
Qed.

Lemma readTileV1_records_do_not_alias_witness :
  12 = 12 /\ 200 = 200 /\ 5 = 5.
Proof.
  apply (readTileV1_records_do_not_alias None 12 200 5 12 200 5);
    first [reflexivity | cbn; lia].
Defined.

(** Two calls whose addresses resolve to the same bundle and the same
    slot return the same thing. *)
Lemma readTileV1_same_record_same_result
    path_join disk dir packetSize level column row column' row' w :
  let ps := or_default 128 packetSize in
  let info := getBundleInfo column row level None in
  let info' := getBundleInfo column' row' level None in
  0 < ps ->
  info' = info ->
  ps * (column' - cGroup info') + (row' - rGroup info')
  = ps * (column - cGroup info) + (row - rGroup info) ->
  fst (readTileV1 path_join disk dir level column' row' packetSize w)
  = fst (readTileV1 path_join disk dir level column row packetSize w).
Proof.
  intros ps info info' Hps Hinfo Hslot.
  destruct (disk (path_join [dir; L info; bundle_file info ".bundlx"]))
    as [[index_content|]|] eqn:Hindex.
  - assert (Hindex' : disk (path_join [dir; L info'; bundle_file info' ".bundlx"])
                      = Some (RegularFile index_content)) by (now rewrite Hinfo).
    set (offset := le_uint_at index_content
                     (16 + 5 * (ps * (column - cGroup info) + (row - rGroup info))) 5).
    assert (Hoffset : le_uint_at index_content
                        (16 + 5 * (ps * (column' - cGroup info')
                                   + (row' - rGroup info'))) 5 = offset)
      by (now rewrite Hslot).
    destruct (Z.eq_dec offset 0) as [Hz|Hnz].
    + rewrite (readTileV1_zero_record path_join disk dir level column row packetSize
                 w Hps index_content Hindex Hz).
      rewrite (readTileV1_zero_record path_join disk dir level column' row' packetSize
                 w Hps index_content Hindex' ltac:(fold ps info'; congruence)).
      reflexivity.
    + assert (Hnz' : le_uint_at index_content
                       (16 + 5 * (ps * (column' - cGroup info')
                                  + (row' - rGroup info'))) 5 <> 0) by congruence.
      destruct (disk (path_join [dir; L info; bundle_file info ".bundle"]))
        as [[data_content|]|] eqn:Hdata.
      * assert (Hdata' : disk (path_join [dir; L info'; bundle_file info' ".bundle"])
                         = Some (RegularFile data_content)) by (now rewrite Hinfo).
        set (length := le_int32_at data_content offset).
        assert (Hcases : (length <= 0 \/ 1000000 < length) \/ 0 < length <= 1000000)
          by lia.
        destruct Hcases as [Hbad|Hok].
        -- rewrite (readTileV1_invalid_length path_join disk dir level column row
                      packetSize w Hps index_content Hindex data_content Hdata Hnz Hbad).
           rewrite (readTileV1_invalid_length path_join disk dir level column' row'
                      packetSize w Hps index_content Hindex' data_content Hdata' Hnz'
                      ltac:(fold ps info'; rewrite Hoffset; exact Hbad)).
           reflexivity.
        -- rewrite (readTileV1_tile path_join disk dir level column row
                      packetSize w Hps index_content Hindex data_content Hdata Hnz Hok).
           rewrite (readTileV1_tile path_join disk dir level column' row'
                      packetSize w Hps index_content Hindex' data_content Hdata' Hnz'
                      ltac:(fold ps info'; rewrite Hoffset; exact Hok)).
           cbn [fst]. fold ps info info'. rewrite Hoffset. reflexivity.
      * assert (Hdata' : disk (path_join [dir; L info'; bundle_file info' ".bundle"])
                         = Some Directory) by (now rewrite Hinfo).
        rewrite (readTileV1_data_directory path_join disk dir level column row
                   packetSize w Hps index_content Hindex Hnz Hdata).
        rewrite (readTileV1_data_directory path_join disk dir level column' row'
                   packetSize w Hps index_content Hindex' Hnz' Hdata').
        reflexivity.
      * assert (Hdata' : disk (path_join [dir; L info'; bundle_file info' ".bundle"])
                         = None) by (now rewrite Hinfo).
        rewrite (readTileV1_data_missing path_join disk dir level column row
                   packetSize w Hps index_content Hindex Hnz Hdata).
        rewrite (readTileV1_data_missing path_join disk dir level column' row'
                   packetSize w Hps index_content Hindex' Hnz' Hdata').
        cbn [fst]. fold info info'. now rewrite Hinfo.
  - assert (Hindex' : disk (path_join [dir; L info'; bundle_file info' ".bundlx"])
                      = Some Directory) by (now rewrite Hinfo).
    rewrite (readTileV1_index_directory path_join disk dir level column row
               packetSize w Hps Hindex).
    rewrite (readTileV1_index_directory path_join disk dir level column' row'
               packetSize w Hps Hindex').
    reflexivity.
  - assert (Hindex' : disk (path_join [dir; L info'; bundle_file info' ".bundlx"])
                      = None) by (now rewrite Hinfo).
    rewrite (readTileV1_index_missing path_join disk dir level column row
               packetSize w Hindex).
    rewrite (readTileV1_index_missing path_join disk dir level column' row'
               packetSize w Hindex').
    cbn [fst]. fold info info'. now rewrite Hinfo.
Qed.

(** X9.  [readTileV1] with a packet size below 128 maps different tiles
    to one index record: the tile at column 0, row [packetSize] and the
    tile at column 1, row 0 of any level resolve to the same bundle and
    the same slot, so on every cache the two calls return the same
    thing. *)
Theorem readTileV1_small_packet_aliases
    (path_join : list string -> string) (disk : filesystem) (dir : string)
    (level packetSize : Z) (w : world) :
  0 < packetSize < 128 ->
  getBundleInfo 0 packetSize level None = getBundleInfo 1 0 level None /\
  fst (readTileV1 path_join disk dir level 0 packetSize (Some packetSize) w)
  = fst (readTileV1 path_join disk dir level 1 0 (Some packetSize) w).
Proof.
  intros Hps.
  assert (Hinfo : getBundleInfo 0 packetSize level None = getBundleInfo 1 0 level None).
  { unfold getBundleInfo. cbn [or_default].
    rewrite (Z.div_small packetSize 128) by lia. reflexivity. }
  split; [exact Hinfo|].
  apply readTileV1_same_record_same_result.
  - cbn [or_default]. lia.
  - exact Hinfo.
  - rewrite Hinfo. unfold getBundleInfo. cbn [cGroup rGroup or_default].
    change (1 / 128 * 128) with 0. change (0 / 128 * 128) with 0. lia.
Qed.

Lemma readTileV1_small_packet_aliases_witness :
  getBundleInfo 0 64 3 None = getBundleInfo 1 0 3 None /\
  fst (readTileV1 Sample.join Sample.empty_disk "/c" 3 0 64 (Some 64) Sample.fresh)
  = fst (readTileV1 Sample.join Sample.empty_disk "/c" 3 1 0 (Some 64) Sample.fresh).
Proof.
  apply (readTileV1_small_packet_aliases Sample.join Sample.empty_disk "/c" 3 64
           Sample.fresh).
  lia.
Defined.

(* ------------------------------------------------------------------------- *)
(** ** The tile route, branch by branch                                       *)
(* ------------------------------------------------------------------------- *)

(** X10.  For a v1 or v2 map and a request that passes the parameter
    check, the route answers every outcome of the decoder and never
    throws itself: bytes become a 200 response with content type
    [image/<imageFormat>], no tile becomes 404, and an exception of the
    decoder is logged and becomes 500.  The v1 decoder is called without
    a packet size, the v2 decoder with the one of the configuration. *)
Theorem tileRoute_answers_decoder_outcome
    (path_join : list string -> string) (root : string)
    (getConfXml : string -> outcome ConfXmlInfo) (disk : filesystem)
    (mapName : string) (level row col : jsnum) (conf : ConfXmlInfo) (w : world) :
  let dir := getAllLayersDir path_join root mapName in
  let decoded :=
    match tileType conf with
    | v1 => readTileV1 path_join disk dir (num_Z level) (num_Z col) (num_Z row) None w
    | _ => readTileV2 path_join disk dir (num_Z col) (num_Z row) (num_Z level)
             (Some (packetSize conf)) w
    end in
  let answer := tileRoute path_join root getConfXml disk mapName level row col w in
  not_str mapName = false -> not_num level = false ->
  not_num row = false -> not_num col = false ->
  getConfXml mapName = Returned conf ->
  tileType conf = v1 \/ tileType conf = v2 ->
  match fst decoded with
  | Returned (Some data) =>
      answer = (Returned (SendTile ("image/" ++ imageFormat conf) data), snd decoded)
  | Returned None =>
      answer = (Returned (SendText 404 "Tile not found or empty."), snd decoded)
  | Thrown e =>
      answer =
        (Returned (SendText 500 "Internal server error."),
         mkWorld (cursors (snd decoded))
           (trace (snd decoded)
              ++ [Console (ErrorSendingTile mapName (num_Z level) (num_Z row)
                             (num_Z col) e)]))
  end.
Proof.
  intros dir decoded answer Hm Hl Hr Hc Hconf Htype.
  subst answer. unfold tileRoute.
  rewrite Hm, Hl, Hr, Hc. cbn [orb].
  erewrite bind_returned by (rewrite Hconf; reflexivity).
  subst decoded. fold dir.
  destruct Htype as [Htype|Htype]; rewrite Htype; unfold try_catch, bind;
    match goal with
    | |- context [fst ?run] => destruct run as [[[data|]|e] w1]
    end; reflexivity.
Qed.

Lemma tileRoute_answers_decoder_outcome_witness :
  let disk := Sample.one_file "/srv/image_tiles/m/_alllayers/L01/R0000C0000.bundle"
                (RegularFile (Sample.bundle_v2 3 129 4 Sample.png)) in
  let conf := mkConf "png" v2 128 in
  fst (tileRoute Sample.join "/srv" (fun _ => Returned conf) disk "m"
         (Num 1) (Num 1) (Num 1) Sample.fresh)
  = Returned (SendTile "image/png" Sample.png).
Proof.
  intros disk conf.
  pose proof (tileRoute_answers_decoder_outcome Sample.join "/srv"
                (fun _ => Returned conf) disk
                "m" (Num 1) (Num 1) (Num 1) conf Sample.fresh
                eq_refl eq_refl eq_refl eq_refl eq_refl (or_intror eq_refl)) as H.
  cbv zeta in H.
  assert (Hdec : fst (readTileV2 Sample.join disk (getAllLayersDir Sample.join "/srv" "m")
                        (num_Z (Num 1)) (num_Z (Num 1)) (num_Z (Num 1))
                        (Some (packetSize conf)) Sample.fresh)
                 = Returned (Some Sample.png))
    by (vm_compute; reflexivity).
  change (tileType conf) with v2 in H. cbv iota in H.
  rewrite Hdec in H. rewrite H. reflexivity.
Defined.

(** X11.  For a v1 map the answer of the route does not depend on the
    packet size of the configuration: two configurations that differ
    only there get the same answer on every cache and every request. *)
Theorem tileRoute_v1_ignores_packetSize
    (path_join : list string -> string) (root : string)
    (getConfXml getConfXml' : string -> outcome ConfXmlInfo) (disk : filesystem)
    (mapName : string) (level row col : jsnum) (conf conf' : ConfXmlInfo)
    (w : world) :
  getConfXml mapName = Returned conf ->
  getConfXml' mapName = Returned conf' ->
  tileType conf = v1 -> tileType conf' = v1 ->
  imageFormat conf = imageFormat conf' ->
  tileRoute path_join root getConfXml disk mapName level row col w
  = tileRoute path_join root getConfXml' disk mapName level row col w.
Proof.
  intros Hconf Hconf' Htype Htype' Hformat. unfold tileRoute.
  destruct (not_str mapName || not_num level || not_num row || not_num col);
    [reflexivity|].
  erewrite !bind_returned by (first [rewrite Hconf | rewrite Hconf']; reflexivity).
  rewrite Htype, Htype', Hformat. reflexivity.
Qed.

Lemma tileRoute_v1_ignores_packetSize_witness :
  let disk := Sample.two_files
                "/srv/image_tiles/m/_alllayers/L01/R0000C0000.bundlx"
                (RegularFile (Sample.bundlx 129 8))
                "/srv/image_tiles/m/_alllayers/L01/R0000C0000.bundle"
                (RegularFile (Sample.bundle_v1 4 Sample.png)) in
  tileRoute Sample.join "/srv" (fun _ => Returned (mkConf "png" v1 128)) disk "m"
    (Num 1) (Num 1) (Num 1) Sample.fresh
  = tileRoute Sample.join "/srv" (fun _ => Returned (mkConf "png" v1 64)) disk "m"
      (Num 1) (Num 1) (Num 1) Sample.fresh.
Proof.
  cbv zeta.
  apply (tileRoute_v1_ignores_packetSize Sample.join "/srv" _ _ _ "m" _ _ _
           (mkConf "png" v1 128) (mkConf "png" v1 64)); reflexivity.
Defined.

(** X12.  When [getConfXml] throws, the route handler throws the same
    error itself: the lookup is outside its [try], so no response is
    produced, nothing is logged and no file is touched. *)
Theorem tileRoute_conf_failure_escapes
    (path_join : list string -> string) (root : string)
    (getConfXml : string -> outcome ConfXmlInfo) (disk : filesystem)
    (mapName : string) (level row col : jsnum) (e : error) (w : world) :
  not_str mapName = false -> not_num level = false ->
  not_num row = false -> not_num col = false ->
  getConfXml mapName = Thrown e ->
  tileRoute path_join root getConfXml disk mapName level row col w = (Thrown e, w).
Proof.
  intros Hm Hl Hr Hc Hconf. unfold tileRoute.
  rewrite Hm, Hl, Hr, Hc. cbn [orb].
  erewrite bind_thrown by (rewrite Hconf; reflexivity).
  reflexivity.
Qed.

Lemma tileRoute_conf_failure_escapes_witness :
  tileRoute Sample.join "/srv" (fun m => Thrown (ConfError m)) Sample.empty_disk "m"
    (Num 1) (Num 1) (Num 1) Sample.fresh
  = (Thrown (ConfError "m"), Sample.fresh).
Proof.
  apply (tileRoute_conf_failure_escapes Sample.join "/srv"
           (fun m => Thrown (ConfError m)) Sample.empty_disk "m"
           (Num 1) (Num 1) (Num 1) (ConfError "m") Sample.fresh); reflexivity.
Defined.

Module LowerCaseFacts.
Import JSString.

Lemma upper_to_lower_digit d :
  0 <= d < 36 -> upper_to_lower (digit_char d) = digit_char d.
Proof.
  intros Hd. destruct (JSStringFacts.small_cases d 36 Hd) as (k & Hk & ->).
  do 36 (destruct k as [|k]; [reflexivity|]). lia.
Qed.

Lemma digits_in_range radix : 2 <= radix ->
  forall fuel n, 0 <= n -> Forall (fun d => 0 <= d < radix) (digits_of fuel radix n).
Proof.
  intros Hr. induction fuel as [|fuel IH]; intros n Hn; cbn [digits_of].
  - constructor.
  - destruct (Z.ltb_spec n radix).
    + repeat constructor; lia.
    + apply Forall_app. split.
      * apply IH. apply Z.div_pos; lia.
      * repeat constructor; apply Z.mod_pos_bound; lia.
Qed.

Lemma toLowerCase_render ds :
  Forall (fun d => 0 <= d < 36) ds -> toLowerCase (render ds) = render ds.
Proof.
  unfold render. induction 1 as [|d ds Hd _ IH]; cbn [map string_of_list_ascii toLowerCase].
  - reflexivity.
  - now rewrite upper_to_lower_digit, IH.
Qed.

Lemma toLowerCase_toString n radix :
  2 <= radix <= 36 -> toLowerCase (toString n radix) = toString n radix.
Proof.
  intros Hr. unfold toString.
  assert (Hrange : forall fuel m, 0 <= m ->
            Forall (fun d => 0 <= d < 36) (digits_of fuel radix m)).
  { intros fuel m Hm. eapply Forall_impl; [|apply digits_in_range; lia].
    cbn. intros; lia. }
  destruct (Z.ltb_spec n 0).
  - cbn [toLowerCase]. rewrite toLowerCase_render by (apply Hrange; lia).
    reflexivity.
  - apply toLowerCase_render, Hrange. lia.
Qed.

End LowerCaseFacts.

(** X13.  For a loose map and a request with positive level, row and
    column (safe integers), the route looks for
    [_alllayers/L<level>/R<row>/C<col><ext>] with the level in two
    decimal digits and row and column in eight lowercase hexadecimal
    digits (zero padded, of the tile itself, not of a group), trying
    [.jpg], [.jpeg], [.png] in that order; it sends the first that
    exists and answers 404 "Raster Tile not found" when none does.  It
    writes one console line and opens no file. *)
Theorem tileRoute_loose_lookup
    (path_join : list string -> string) (root : string)
    (getConfXml : string -> outcome ConfXmlInfo) (disk : filesystem)
    (mapName : string) (level row col : Z) (conf : ConfXmlInfo) (w : world) :
  not_str mapName = false ->
  0 < level <= MAX_SAFE_INTEGER ->
  0 < row <= MAX_SAFE_INTEGER ->
  0 < col <= MAX_SAFE_INTEGER ->
  getConfXml mapName = Returned conf ->
  tileType conf = loose ->
  exists l r c,
    JSString.zero_padded 10 2 level l /\
    JSString.zero_padded 16 8 row r /\
    JSString.zero_padded 16 8 col c /\
    let tile := fun ext : string =>
      path_join [RASTER_TILE_ROOT_DIR path_join root; mapName; "_alllayers";
                 String "L" l; String "R" r; (String "C" c ++ ext)%string] in
    tileRoute path_join root getConfXml disk mapName (Num level) (Num row) (Num col) w
    = (Returned
         (if fs_existsSync disk (tile ".jpg") then SendFile (tile ".jpg")
          else if fs_existsSync disk (tile ".jpeg") then SendFile (tile ".jpeg")
          else if fs_existsSync disk (tile ".png") then SendFile (tile ".png")
          else SendText 404 "Raster Tile not found"),
       mkWorld (cursors w) (trace w ++ [Console LogLoose])).
Proof.
  intros Hm [Hl _] [Hr _] [Hc _] Hconf Htype.
  exists (JSString.padStart (JSString.toString level 10) 2 "0"),
         (JSString.padStart (JSString.toString row 16) 8 "0"),
         (JSString.padStart (JSString.toString col 16) 8 "0").
  split; [apply JSStringFacts.padStart_toString; lia|].
  split; [apply JSStringFacts.padStart_toString; lia|].
  split; [apply JSStringFacts.padStart_toString; lia|].
  cbv zeta. unfold tileRoute. rewrite Hm. cbn [not_num orb num_Z].
  destruct (Z.eqb_spec level 0); [lia|].
  destruct (Z.eqb_spec row 0); [lia|].
  destruct (Z.eqb_spec col 0); [lia|]. cbn [orb].
  erewrite bind_returned by (rewrite Hconf; reflexivity).
  rewrite Htype.
  rewrite !LowerCaseFacts.toLowerCase_toString by lia.
  unfold console. erewrite bind_returned by (unfold emit; reflexivity).
  cbn [first_existing].
  repeat match goal with
         | |- context [fs_existsSync disk ?p] => destruct (fs_existsSync disk p)
         end; reflexivity.
Qed.

Lemma tileRoute_loose_lookup_witness :
  exists l r c,
    JSString.zero_padded 10 2 12 l /\
    JSString.zero_padded 16 8 629 r /\
    JSString.zero_padded 16 8 3329 c /\
    let tile := fun ext : string =>
      Sample.join [RASTER_TILE_ROOT_DIR Sample.join "/srv"; "m"; "_alllayers";
                   String "L" l; String "R" r; (String "C" c ++ ext)%string] in
    let disk := Sample.one_file
                  "/srv/image_tiles/m/_alllayers/L12/R00000275/C00000d01.png"
                  (RegularFile Sample.png) in
    tileRoute Sample.join "/srv" (fun _ => Returned (mkConf "png" loose 128)) disk "m"
      (Num 12) (Num 629) (Num 3329) Sample.fresh
    = (Returned
         (if fs_existsSync disk (tile ".jpg") then SendFile (tile ".jpg")
          else if fs_existsSync disk (tile ".jpeg") then SendFile (tile ".jpeg")
          else if fs_existsSync disk (tile ".png") then SendFile (tile ".png")
          else SendText 404 "Raster Tile not found"),
       mkWorld (cursors Sample.fresh) (trace Sample.fresh ++ [Console LogLoose])).
Proof.
  apply (tileRoute_loose_lookup Sample.join "/srv"
           (fun _ => Returned (mkConf "png" loose 128))
           (Sample.one_file
              "/srv/image_tiles/m/_alllayers/L12/R00000275/C00000d01.png"
              (RegularFile Sample.png))
           "m" 12 629 3329 (mkConf "png" loose 128) Sample.fresh);
    first [reflexivity | unfold MAX_SAFE_INTEGER; lia].
Defined.

Example tileRoute_loose_sample :
  fst (tileRoute Sample.join "/srv" (fun _ => Returned (mkConf "png" loose 128))
         (Sample.one_file "/srv/image_tiles/m/_alllayers/L12/R00000275/C00000d01.png"
            (RegularFile Sample.png))
         "m" (Num 12) (Num 629) (Num 3329) Sample.fresh)
  = Returned (SendFile "/srv/image_tiles/m/_alllayers/L12/R00000275/C00000d01.png").
Proof. vm_compute. reflexivity. Qed.

(* ------------------------------------------------------------------------- *)
(** ** The configuration cache                                                *)
(* ------------------------------------------------------------------------- *)

(** X14.  Once [getConfXml] has returned a configuration for a map, every
    later call for that map returns the same configuration from the
    cache, whatever has happened to [conf.xml] on disk and whatever the
    parser would now say; the cache entries of other maps are
    untouched. *)
Theorem getConfXml_memoizes
    (path_join : list string -> string) (root : string)
    (parseConf : list byte -> outcome ConfXmlInfo) (disk : filesystem)
    (mapName : string) (cache cache' : ConfCache) (conf : ConfXmlInfo) :
  getConfXml path_join root parseConf disk mapName cache = (Returned conf, cache') ->
  (forall parseConf' disk',
      getConfXml path_join root parseConf' disk' mapName cache'
      = (Returned conf, cache')) /\
  (forall other, other <> mapName -> cache' other = cache other).
Proof.
  unfold getConfXml. intros Hrun.
  destruct (cache mapName) as [cached|] eqn:Hcached.
  - injection Hrun as -> ->. split; [|reflexivity].
    intros parseConf' disk'. now rewrite Hcached.
  - destruct (negb (fs_existsSync disk _)); [discriminate|].
    destruct (disk _) as [[xml|]|]; try discriminate.
    destruct (parseConf xml) as [cached|e]; [|discriminate].
    injection Hrun as -> <-. split.
    + intros parseConf' disk'. unfold Map_set at 1. now rewrite String.eqb_refl.
    + intros other Hother. unfold Map_set.
      destruct (String.eqb_spec other mapName); [contradiction|reflexivity].
Qed.

Lemma getConfXml_memoizes_witness :
  let parse := fun _ : list byte => Returned (mkConf "png" v2 128) in
  let disk := Sample.one_file "/srv/image_tiles/m/conf.xml" (RegularFile []) in
  let cache' := Map_set (fun _ => None) "m" (mkConf "png" v2 128) in
  (forall parseConf' disk',
      getConfXml Sample.join "/srv" parseConf' disk' "m" cache'
      = (Returned (mkConf "png" v2 128), cache')) /\
  (forall other, other <> "m" -> cache' other = None).
Proof.
  apply (getConfXml_memoizes Sample.join "/srv"
           (fun _ => Returned (mkConf "png" v2 128))
           (Sample.one_file "/srv/image_tiles/m/conf.xml" (RegularFile []))
           "m" (fun _ => None)).
  reflexivity.
Defined.

(** X15.  A call of [getConfXml] that throws leaves the cache as it was
    (failures are not remembered), and a map without [conf.xml] that is
    not in the cache always throws. *)
Theorem getConfXml_failure_not_cached
    (path_join : list string -> string) (root : string)
    (parseConf : list byte -> outcome ConfXmlInfo) (disk : filesystem)
    (mapName : string) (cache : ConfCache) :
  (forall e cache',
      getConfXml path_join root parseConf disk mapName cache = (Thrown e, cache') ->
      cache' = cache) /\
  (cache mapName = None ->
   disk (path_join [RASTER_TILE_ROOT_DIR path_join root; mapName; "conf.xml"]) = None ->
   getConfXml path_join root parseConf disk mapName cache
   = (Thrown (ConfError mapName), cache)).
Proof.
  unfold getConfXml. split.
  - intros e cache' Hrun.
    destruct (cache mapName); [discriminate|].
    destruct (negb (fs_existsSync disk _)); [now injection Hrun|].
    destruct (disk _) as [[xml|]|]; try (now injection Hrun).
    destruct (parseConf xml); [discriminate|now injection Hrun].
  - intros Hcache Hdisk. rewrite Hcache. unfold fs_existsSync. now rewrite Hdisk.
Qed.

Lemma getConfXml_failure_not_cached_witness :
  getConfXml Sample.join "/srv" (fun _ => Returned (mkConf "png" v2 128))
    Sample.empty_disk "m" (fun _ => None)
  = (Thrown (ConfError "m"), fun _ => None).
Proof.
  apply (getConfXml_failure_not_cached Sample.join "/srv"
           (fun _ => Returned (mkConf "png" v2 128)) Sample.empty_disk "m"
           (fun _ => None)); reflexivity.
Defined.

(* ------------------------------------------------------------------------- *)
(** ** The vector tile root route                                             *)
(* ------------------------------------------------------------------------- *)

Module JSUrlFacts.
Import JSUrl.

Lemma endsWith_append s t c :
  t <> EmptyString -> endsWith (s ++ t) c = endsWith t c.
Proof.
  intros Ht. induction s as [|a s IH]; [reflexivity|].
  cbn [append endsWith]. destruct (s ++ t)%string eqn:E.
  - destruct s; [cbn in E; contradiction|discriminate].
  - exact IH.
Qed.

Lemma indexOf_append_found p rest c :
  indexOf p c = None ->
  indexOf (p ++ String c rest) c = Some (String.length p).
Proof.
  induction p as [|a p IH]; cbn [append indexOf String.length]; intros Hp.
  - now rewrite Ascii.eqb_refl.
  - destruct (Ascii.eqb a c); [discriminate|].
    destruct (indexOf p c); [discriminate|]. now rewrite IH.
Qed.

Lemma slice_append p t : slice (p ++ t) (String.length p) = t.
Proof.
  induction p as [|a p IH]; cbn [append String.length slice].
  - now destruct t.
  - exact IH.
Qed.

Lemma before_query_append p rest :
  indexOf p "?" = None -> before_query (p ++ String "?" rest) = p.
Proof.
  induction p as [|a p IH]; cbn [append before_query indexOf]; intros Hp.
  - reflexivity.
  - destruct (Ascii.eqb a "?"); [discriminate|].
    destruct (indexOf p "?"); [discriminate|]. now rewrite IH.
Qed.

Lemma append_assoc s1 s2 s3 : ((s1 ++ s2) ++ s3 = s1 ++ (s2 ++ s3))%string.
Proof. induction s1 as [|c s1 IH]; cbn; [reflexivity|now rewrite IH]. Qed.

Lemma append_empty_r s : (s ++ EmptyString)%string = s.
Proof. induction s as [|c s IH]; cbn; [reflexivity|now rewrite IH]. Qed.

(** The query that the handler cuts out of a URL with a question mark. *)
Lemma query_of_url p rest :
  indexOf p "?" = None ->
  (if includes (p ++ String "?" rest) "?"
   then match indexOf (p ++ String "?" rest) "?" with
        | Some i => slice (p ++ String "?" rest) i
        | None => (p ++ String "?" rest)%string
        end
   else EmptyString) = String "?" rest.
Proof.
  intros Hp. unfold includes. rewrite indexOf_append_found by exact Hp.
  apply slice_append.
Qed.

End JSUrlFacts.

(** X16.  A request for the root without a trailing slash, without a
    query string and without [f=json] is redirected (301) to the same
    URL with a slash appended, and the request for that URL is answered
    204: one redirect settles it. *)
Theorem vectorRootRoute_adds_slash
    (path_join : list string -> string) (root : string) (disk : filesystem)
    (url package : string) :
  JSUrl.includes url "?" = false ->
  JSUrl.endsWith url "/" = false ->
  vectorRootRoute path_join root disk None url url url package
  = Redirect 301 (url ++ "/") /\
  vectorRootRoute path_join root disk None (url ++ "/") (url ++ "/") (url ++ "/") package
  = NoContent.
Proof.
  intros Hq Hslash. unfold vectorRootRoute, JSUrl.replace_final_slash. split.
  - rewrite Hslash, Hq. cbn [negb]. now rewrite JSUrlFacts.append_empty_r.
  - rewrite JSUrlFacts.endsWith_append by discriminate. reflexivity.
Qed.

Lemma vectorRootRoute_adds_slash_witness :
  vectorRootRoute Sample.join "/srv" Sample.empty_disk None
    "/vector_tiles/pkg/p12" "/vector_tiles/pkg/p12" "/vector_tiles/pkg/p12" "pkg"
  = Redirect 301 "/vector_tiles/pkg/p12/" /\
  vectorRootRoute Sample.join "/srv" Sample.empty_disk None
    "/vector_tiles/pkg/p12/" "/vector_tiles/pkg/p12/" "/vector_tiles/pkg/p12/" "pkg"
  = NoContent.
Proof.
  apply (vectorRootRoute_adds_slash Sample.join "/srv" Sample.empty_disk
           "/vector_tiles/pkg/p12" "pkg"); reflexivity.
Defined.

(** X17.  With a query string (and [f] other than [json]) the redirect
    does not settle: for a URL [path ++ "?" ++ rest] whose path has no
    trailing slash, the redirect target has the same path (the slash is
    appended after the query, and the query is repeated), so the request
    for the target is redirected again, to a longer URL. *)
Theorem vectorRootRoute_query_redirects_again
    (path_join : list string -> string) (root : string) (disk : filesystem)
    (f f' : option string) (path rest package : string) :
  let url := (path ++ String "?" rest)%string in
  let location := (JSUrl.replace_final_slash url ++ String "?" rest)%string in
  f <> Some "json" -> f' <> Some "json" ->
  JSUrl.indexOf path "?" = None ->
  JSUrl.endsWith path "/" = false ->
  vectorRootRoute path_join root disk f path url url package = Redirect 301 location /\
  JSUrl.before_query location = path /\
  exists location',
    vectorRootRoute path_join root disk f' path location location package
    = Redirect 301 location' /\
    (String.length location < String.length location')%nat.
Proof.
  intros url location Hf Hf' Hpath Hslash.
  assert (Hnot : forall g : option string, g <> Some "json" ->
            match g with Some v => String.eqb v "json" | None => false end = false).
  { intros [v|] Hg; [|reflexivity].
    destruct (String.eqb_spec v "json"); [subst; contradiction|reflexivity]. }
  assert (Hloc : exists tail, location = (path ++ String "?" tail)%string).
  { unfold location, JSUrl.replace_final_slash, url.
    destruct (JSUrl.endsWith (path ++ String "?" rest) "/").
    - exists (rest ++ String "?" rest)%string.
      rewrite JSUrlFacts.append_assoc. reflexivity.
    - exists (rest ++ "/" ++ String "?" rest)%string.
      rewrite !JSUrlFacts.append_assoc. reflexivity. }
  split; [|split].
  - unfold vectorRootRoute. cbv zeta. rewrite (Hnot f Hf), Hslash. cbn [negb].
    unfold location, url. rewrite JSUrlFacts.query_of_url by exact Hpath.
    reflexivity.
  - destruct Hloc as [tail ->]. apply JSUrlFacts.before_query_append. exact Hpath.
  - destruct Hloc as [tail Hloc]. eexists. split.
    + unfold vectorRootRoute. cbv zeta. rewrite (Hnot f' Hf'), Hslash. cbn [negb].
      pose proof (JSUrlFacts.query_of_url path tail Hpath) as Hq.
      rewrite <- Hloc in Hq. rewrite Hq. reflexivity.
    + rewrite JSStringFacts.length_append. cbn [String.length].
      unfold JSUrl.replace_final_slash.
      destruct (JSUrl.endsWith location "/"); rewrite ?JSStringFacts.length_append; lia.
Qed.

Lemma vectorRootRoute_query_redirects_again_witness :
  vectorRootRoute Sample.join "/srv" Sample.empty_disk (Some "pjson")
    "/vector_tiles/pkg/p12" "/vector_tiles/pkg/p12?f=pjson"
    "/vector_tiles/pkg/p12?f=pjson" "pkg"
  = Redirect 301 "/vector_tiles/pkg/p12?f=pjson/?f=pjson" /\
  JSUrl.before_query "/vector_tiles/pkg/p12?f=pjson/?f=pjson" = "/vector_tiles/pkg/p12".
Proof.
  destruct (vectorRootRoute_query_redirects_again Sample.join "/srv" Sample.empty_disk
              (Some "pjson") None "/vector_tiles/pkg/p12" "f=pjson" "pkg")
    as (H1 & H2 & _).
  - discriminate.
  - discriminate.
  - reflexivity.
  - reflexivity.
  - split; [exact H1|exact H2].
Defined.
